(** * Servoscale: the RC servo pulse conditioner, embedded in Rocq

    The repository holds two builds of the same control loop:

    - the AVR firmware ([servoscale.c], function [main]), modelled in
      [Module Avr];
    - the Arduino sketch (functions [setup] and [loop]), modelled in
      [Module Arduino].

    Both run one iteration per received servo pulse.  An iteration reads the
    pulse width, centers it, runs the driving state machine, scales the
    width according to the state and emits the new pulse.  The globals of
    the C code are gathered in a record and one loop iteration is a function
    from the globals and the measured width to the new globals and the
    emitted width.

    C integers are modelled as [Z] with the conversion to the variable's
    type written out at every assignment.  [int] is 16 bits wide on the
    targeted AVR parts; signed overflow is modelled as two's complement
    wrap-around, which is what avr-gcc generates. *)

From Stdlib Require Import ZArith List Bool Lia.
From Equations Require Import Equations.
Import ListNotations.

Local Open Scope Z_scope.

(** ** Fixed-width integers *)

Definition to_uint8_t (z : Z) : Z := z mod 256.
Definition to_uint16_t (z : Z) : Z := z mod 65536.
Definition to_int8_t (z : Z) : Z := (z + 128) mod 256 - 128.
Definition to_int16_t (z : Z) : Z := (z + 32768) mod 65536 - 32768.
Definition to_int32_t (z : Z) : Z := (z + 2147483648) mod 4294967296 - 2147483648.

(** The anonymous [enum] of both builds. *)
Inductive state_t : Type := CTR | INI | REV | FWD | STP | BRK.

Definition state_eqb (a b : state_t) : bool :=
  match a, b with
  | CTR, CTR | INI, INI | REV, REV | FWD, FWD | STP, STP | BRK, BRK => true
  | _, _ => false
  end.

(** What a pulse emission does to the outside world: writes to the output
    port and the number of times the body of the busy-wait loop ran. *)
Inductive event : Type :=
| PortWrite (v : Z)
| Spin (n : Z).

(** ** The AVR firmware *)

Module Avr.

Definition F_CPU : Z := 8000000.
Definition MARGIN : Z := 40.
Definition FWDFULL : Z := 400.
Definition MAXBURST : Z := 15.

(** Bit numbers of port B, as avr-libc's <avr/io.h> gives them. *)
Definition PB0 : Z := 0.
Definition PB1 : Z := 1.
Definition PB2 : Z := 2.
Definition PB3 : Z := 3.
Definition PB4 : Z := 4.
Definition DDB0 : Z := 0.
Definition DDB1 : Z := 1.
Definition DDB2 : Z := 2.
Definition DDB3 : Z := 3.

(** The global variables, with the two I/O registers the loop writes. *)
Record globals : Type := mkGlobals {
  state : state_t;
  duration : Z;   (* uint8_t *)
  led : Z;        (* uint8_t *)
  nobst : Z;      (* int8_t *)
  offset : Z;     (* int16_t *)
  PORTB : Z;
  DDRB : Z
}.

Definition set_state (g : globals) (s : state_t) : globals :=
  mkGlobals s (duration g) (led g) (nobst g) (offset g) (PORTB g) (DDRB g).
Definition set_duration (g : globals) (d : Z) : globals :=
  mkGlobals (state g) d (led g) (nobst g) (offset g) (PORTB g) (DDRB g).
Definition set_led (g : globals) (l : Z) : globals :=
  mkGlobals (state g) (duration g) l (nobst g) (offset g) (PORTB g) (DDRB g).
Definition set_nobst (g : globals) (n : Z) : globals :=
  mkGlobals (state g) (duration g) (led g) n (offset g) (PORTB g) (DDRB g).
Definition set_offset (g : globals) (o : Z) : globals :=
  mkGlobals (state g) (duration g) (led g) (nobst g) o (PORTB g) (DDRB g).
Definition set_PORTB (g : globals) (p : Z) : globals :=
  mkGlobals (state g) (duration g) (led g) (nobst g) (offset g) (to_uint8_t p) (DDRB g).
Definition set_DDRB (g : globals) (d : Z) : globals :=
  mkGlobals (state g) (duration g) (led g) (nobst g) (offset g) (PORTB g) (to_uint8_t d).

(** The initialisers of the globals, and [DDRB] as [main] sets it before
    the loop. *)
Definition boot : globals :=
  mkGlobals CTR 0 1 0 0 0
    (to_uint8_t (Z.lor (Z.lor (Z.shiftl 1 DDB3) (Z.shiftl 1 DDB1)) (Z.shiftl 1 DDB0))).

(** [while (--width) asm volatile("");] on a [uint16_t]: the counter is
    decremented, then tested.  [n] counts the runs of the loop body. *)
Equations? spin (width : Z) (n : Z) : Z
  by wf (Z.to_nat (to_uint16_t (width - 1))) lt :=
  spin width n with Z.eq_dec (to_uint16_t (width - 1)) 0 := {
    | left _ => n
    | right _ => spin (to_uint16_t (width - 1)) (n + 1) }.
Proof.
  unfold to_uint16_t in *.
  pose proof (Z.mod_pos_bound (width - 1) 65536 ltac:(lia)) as Hb.
  rewrite (Z.mod_small ((width - 1) mod 65536 - 1)) by lia.
  lia.
Qed.

(** [send_pulse]: the loop count is computed in [long] (the constant
    [F_CPU] does not fit an [int]) and stored back into the [uint16_t]
    parameter. *)
Definition send_pulse (g : globals) (width : Z) : globals * list event :=
  let width := to_uint16_t (to_int32_t (to_int32_t (width * (F_CPU / 1000000)) / 4 + 1)) in
  let g := set_PORTB g (Z.lor (PORTB g) (Z.shiftl 1 PB3)) in
  let high := PORTB g in
  let n := spin width 0 in
  let g := set_PORTB g (Z.land (PORTB g) (Z.lnot (Z.shiftl 1 PB3))) in
  (g, [PortWrite high; Spin n; PortWrite (PORTB g)]).

Definition show_led (g : globals) : globals :=
  set_PORTB g (Z.lor (Z.shiftl (led g) PB1)
                     (Z.land (PORTB g) (Z.lnot (Z.shiftl 1 PB1)))).

(** [if (len < 0) offset -= len; else offset += len;] *)
Definition cumulate (g : globals) (len : Z) : globals :=
  if len <? 0 then set_offset g (to_int16_t (offset g - len))
  else set_offset g (to_int16_t (offset g + len)).

(** The first [switch] of the loop body: the driving state machine, run on
    the centered and corrected width [len]. *)
Definition switch_state (g : globals) (len : Z) : globals :=
  match state g with
  | CTR =>
      if (len <? -500) || (len >? 500) then
        (* wait for a valid signal to start measuring *)
        set_duration g (to_uint8_t (duration g - 1))
      else
        let g :=
          if duration g >=? 10 then
            (* cumulate imprecision over the last 10 samples *)
            cumulate g len
          else g in
        if duration g >=? 20 then
          let g := set_offset g (to_int16_t (Z.quot (offset g) 10)) in
          let g := set_state g INI in
          set_duration g 0
        else g
  | INI =>
      if len >=? MARGIN then set_duration (set_state g FWD) 0
      else if len <=? - MARGIN then set_duration (set_state g REV) 0
      else g
  | FWD =>
      if len <=? - MARGIN then set_duration (set_state g BRK) 0
      else if (len >? - MARGIN) && (len <? MARGIN) then
        if duration g >=? 4 then set_duration (set_state g STP) 0
        else g
      else g
  | STP =>
      if len >=? MARGIN then set_duration (set_state g FWD) 0
      else if len <=? - MARGIN then set_duration (set_state g BRK) 0
      else g
  | BRK | REV =>
      if len >=? MARGIN then set_duration (set_state g FWD) 0
      else if (len >? - MARGIN) && (len <? MARGIN) then
        if duration g >=? 4 then set_duration (set_state g INI) 0
        else g
      else g
  end.

(** The brake and rear lights on PB2. *)
Definition brake_light (g : globals) : globals :=
  match state g with
  | BRK =>
      let g := set_DDRB g (Z.lor (DDRB g) (Z.shiftl 1 DDB2)) in
      set_PORTB g (Z.lor (PORTB g) (Z.shiftl 1 PB2))
  | REV =>
      let g := set_DDRB g (Z.lor (DDRB g) (Z.shiftl 1 DDB2)) in
      set_PORTB g (Z.land (PORTB g) (Z.lnot (Z.shiftl 1 PB2)))
  | _ => set_DDRB g (Z.land (DDRB g) (Z.lnot (Z.shiftl 1 DDB2)))
  end.

(** [len * 2 / 5] and [len * 2 / 3], computed in [int] and stored in the
    [int16_t]; C division truncates towards zero. *)
Definition scale_fwd (len : Z) : Z := to_int16_t (Z.quot (to_int16_t (len * 2)) 5).
Definition scale_rev (len : Z) : Z := to_int16_t (Z.quot (to_int16_t (len * 2)) 3).

(** The second [switch]: the scaling policy.  Returns the globals and the
    scaled [len]. *)
Definition switch_scale (g : globals) (len : Z) : globals * Z :=
  match state g with
  | FWD =>
      let g := set_nobst g (to_int8_t (nobst g + 1)) in
      let g := if nobst g >=? MAXBURST then set_nobst g (to_int8_t (2 * MAXBURST)) else g in
      if (len <? FWDFULL) || (nobst g >=? MAXBURST) then
        (set_led g 1, scale_fwd len)
      else (g, len)
  | REV =>
      let len := scale_rev len in
      let g := set_led g 1 in
      let g := set_nobst g (to_int8_t (nobst g - 1)) in
      let g := if nobst g <? 0 then set_nobst g 0 else g in
      (g, len)
  | CTR => (set_led g 1, len)
  | _ =>
      let g := set_led g 0 in
      let g := set_nobst g (to_int8_t (nobst g - 1)) in
      let g := if nobst g <? 0 then set_nobst g 0 else g in
      (g, len)
  end.

(** [len] as the state machine sees it: the measured width, centered at
    1500 microseconds and, once calibrated, corrected by [offset]. *)
Definition center (g : globals) (w : Z) : Z :=
  let len := to_int16_t w in
  let len := to_int16_t (len - 1500) in
  if negb (state_eqb (state g) CTR) then to_int16_t (len + offset g) else len.

(** The front light on PB0, from the raw width. *)
Definition front_light (g : globals) (len : Z) : globals :=
  if len <? 1400 then set_PORTB g (Z.land (PORTB g) (Z.lnot (Z.shiftl 1 PB0)))
  else set_PORTB g (Z.lor (PORTB g) (Z.shiftl 1 PB0)).

(** The update of [duration] that ends the loop body. *)
Definition tick (g : globals) : globals :=
  if duration g <? 255 then set_duration g (to_uint8_t (duration g + 1)) else g.

(** [len += 1500; send_pulse(len);]: the [int16_t] is re-centered and
    converted to the [uint16_t] parameter. *)
Definition recenter (len : Z) : Z := to_uint16_t (to_int16_t (len + 1500)).

(** One iteration of the [while (1)] loop of [main]; [w] is what
    [pulse_width()] returned.  The result holds the globals at the end of
    the iteration and the width handed to [send_pulse]. *)
Definition main_loop (g : globals) (w : Z) : globals * Z :=
  let g := show_led g in
  let g := set_led g 0 in
  let g := show_led g in
  let g := front_light g (to_int16_t w) in
  let len := center g w in
  let g := switch_state g len in
  let g := brake_light g in
  let '(g, len) := switch_scale g len in
  let g := fst (send_pulse g (recenter len)) in
  (tick g, recenter len).

(** The firmware run on a sequence of measured widths: the final globals
    and the emitted widths, oldest first. *)
Fixpoint run (g : globals) (ws : list Z) : globals * list Z :=
  match ws with
  | [] => (g, [])
  | w :: ws' =>
      let '(g1, out) := main_loop g w in
      let '(g2, outs) := run g1 ws' in
      (g2, out :: outs)
  end.

(** The globals the firmware can be in at the top of its loop. *)
Definition reachable (g : globals) : Prop := exists ws, g = fst (run boot ws).

(** Every iteration of the run of [ws] from [g] ends in state [FWD]. *)
Fixpoint all_forward (g : globals) (ws : list Z) : Prop :=
  match ws with
  | [] => True
  | w :: ws' =>
      state (fst (main_loop g w)) = FWD /\ all_forward (fst (main_loop g w)) ws'
  end.

(** Where the state machine returns to when the trigger is released. *)
Definition released (s : state_t) : state_t :=
  match s with
  | FWD => STP
  | REV | BRK => INI
  | s => s
  end.

End Avr.

(** ** The Arduino sketch *)

Module Arduino.

Definition LED : Z := 1.
Definition PIN_IN : Z := 4.
Definition PIN_OUT : Z := 3.
Definition MARGIN : Z := 40.
Definition FWDFULL : Z := 300.
Definition MAXBURST : Z := 20.

(** [int] on the AVR boards the sketch is written for. *)
Definition to_int (z : Z) : Z := to_int16_t z.

(** The global variables, with the level of the two output pins. *)
Record globals : Type := mkGlobals {
  state : state_t;
  duration : Z;   (* int *)
  nobst : Z;      (* int *)
  offset : Z;     (* int *)
  pin_LED : bool;
  pin_OUT : bool
}.

Definition set_state (g : globals) (s : state_t) : globals :=
  mkGlobals s (duration g) (nobst g) (offset g) (pin_LED g) (pin_OUT g).
Definition set_duration (g : globals) (d : Z) : globals :=
  mkGlobals (state g) d (nobst g) (offset g) (pin_LED g) (pin_OUT g).
Definition set_nobst (g : globals) (n : Z) : globals :=
  mkGlobals (state g) (duration g) n (offset g) (pin_LED g) (pin_OUT g).
Definition set_offset (g : globals) (o : Z) : globals :=
  mkGlobals (state g) (duration g) (nobst g) o (pin_LED g) (pin_OUT g).

(** [digitalWrite] on the two pins the sketch drives. *)
Definition digitalWrite (g : globals) (pin : Z) (level : bool) : globals :=
  if pin =? LED then
    mkGlobals (state g) (duration g) (nobst g) (offset g) level (pin_OUT g)
  else if pin =? PIN_OUT then
    mkGlobals (state g) (duration g) (nobst g) (offset g) (pin_LED g) level
  else g.

Definition boot : globals := mkGlobals CTR 0 0 0 false false.

Definition center (g : globals) (w : Z) : Z :=
  let len := to_int w in
  let len := to_int (len - 1500) in
  if negb (state_eqb (state g) CTR) then to_int (len + offset g) else len.

(** calibration: turn on the LED for non-rest positions *)
Definition calibration_led (g : globals) (len : Z) : globals :=
  digitalWrite g LED
    (state_eqb (state g) CTR
     || ((len >=? -1500) && (len <=? - MARGIN))
     || ((len >=? MARGIN) && (len <=? 1500))).

Definition cumulate (g : globals) (len : Z) : globals :=
  if len <? 0 then set_offset g (to_int (offset g - len))
  else set_offset g (to_int (offset g + len)).

Definition switch_state (g : globals) (len : Z) : globals :=
  match state g with
  | CTR =>
      if (len <? -1500) || (len >? 1500) then
        (* wait for a valid signal to start measuring *)
        set_duration g (to_int (duration g - 1))
      else
        let g :=
          if duration g >=? 10 then
            (* cumulate imprecision over the last 10 samples *)
            cumulate g len
          else g in
        if duration g >=? 20 then
          let g := set_offset g (to_int (Z.quot (offset g) 10)) in
          let g := set_state g INI in
          set_duration g 0
        else g
  | INI =>
      if len >=? MARGIN then set_duration (set_state g FWD) 0
      else if len <=? - MARGIN then set_duration (set_state g REV) 0
      else g
  | FWD =>
      if len <=? - MARGIN then set_duration (set_state g BRK) 0
      else if (len >? - MARGIN) && (len <? MARGIN) then
        if duration g >=? 4 then set_duration (set_state g STP) 0
        else g
      else g
  | STP =>
      if len >=? MARGIN then set_duration (set_state g FWD) 0
      else if len <=? - MARGIN then set_duration (set_state g BRK) 0
      else g
  | BRK | REV =>
      if len >=? MARGIN then set_duration (set_state g FWD) 0
      else if (len >? - MARGIN) && (len <? MARGIN) then
        if duration g >=? 4 then set_duration (set_state g INI) 0
        else g
      else g
  end.

(** [len * 2 / 5] and [len * 2 / 4]. *)
Definition scale_fwd (len : Z) : Z := to_int (Z.quot (to_int (len * 2)) 5).
Definition scale_rev (len : Z) : Z := to_int (Z.quot (to_int (len * 2)) 4).

Definition switch_scale (g : globals) (len : Z) : globals * Z :=
  match state g with
  | FWD =>
      let g := set_nobst g (to_int (nobst g + 1)) in
      let g := if nobst g >=? MAXBURST then set_nobst g (to_int (2 * MAXBURST)) else g in
      if (len <? FWDFULL) || (nobst g >=? MAXBURST) then
        (g, scale_fwd len)
      else (g, len)
  | REV =>
      let len := scale_rev len in
      let g := set_nobst g (to_int (nobst g - 1)) in
      let g := if nobst g <? 0 then set_nobst g 0 else g in
      (g, len)
  | _ =>
      let g := set_nobst g (to_int (nobst g - 1)) in
      let g := if nobst g <? 0 then set_nobst g 0 else g in
      (g, len)
  end.

Definition tick (g : globals) : globals :=
  let g := set_duration g (to_int (duration g + 1)) in
  if duration g >? 1000 then set_duration g 1000 else g.

(** [len += 1500; ... delayMicroseconds(len);] *)
Definition recenter (len : Z) : Z := to_uint16_t (to_int (len + 1500)).

(** One call of [loop]; [w] is what [pulseIn(PIN_IN, HIGH)] returned.  The
    result holds the globals on return and the argument of
    [delayMicroseconds], an [unsigned int]. *)
Definition loop (g : globals) (w : Z) : globals * Z :=
  let len := center g w in
  let g := calibration_led g len in
  let g := switch_state g len in
  let '(g, len) := switch_scale g len in
  let g := digitalWrite g PIN_OUT true in
  let g := digitalWrite g PIN_OUT false in
  (tick g, recenter len).

Fixpoint run (g : globals) (ws : list Z) : globals * list Z :=
  match ws with
  | [] => (g, [])
  | w :: ws' =>
      let '(g1, out) := loop g w in
      let '(g2, outs) := run g1 ws' in
      (g2, out :: outs)
  end.

End Arduino.

(** ** Pulse capture and the debug loops of the AVR firmware

    The input pin is read by polling.  The reads of [PINB] that a function
    makes are given as a list, oldest first; a function that is still
    polling when the list ends has not returned, which is [None]. *)

Module Capture.

Definition to_uint32_t (z : Z) : Z := z mod 4294967296.

(** [PINB & (1 << PB4)], as a condition. *)
Definition high (pinb : Z) : bool :=
  negb (Z.land pinb (Z.shiftl 1 Avr.PB4) =? 0).

(** [while (PINB & (1 << PB4));] *)
Fixpoint phase0 (reads : list Z) : option (list Z) :=
  match reads with
  | [] => None
  | pinb :: reads' => if high pinb then phase0 reads' else Some reads'
  end.

(** [while (!(PINB & (1 << PB4)));] *)
Fixpoint phase1 (reads : list Z) : option (list Z) :=
  match reads with
  | [] => None
  | pinb :: reads' => if negb (high pinb) then phase1 reads' else Some reads'
  end.

(** [while (PINB & (1 << PB4)) width += 5;] on the [uint16_t]. *)
Fixpoint phase2 (reads : list Z) (width : Z) : option (Z * list Z) :=
  match reads with
  | [] => None
  | pinb :: reads' =>
      if high pinb then phase2 reads' (to_uint16_t (width + 5))
      else Some (width, reads')
  end.

(** The number of cycles turned into microseconds, for a clock of [f_cpu]
    Hz: the operands are [long], the result goes back to the [uint16_t]. *)
Definition microseconds (f_cpu width : Z) : Z :=
  if f_cpu mod 1000000 =? 0 then
    to_uint16_t (to_int32_t (width / (f_cpu / 1000000)))
  else
    to_uint16_t (to_uint32_t (to_uint32_t (to_uint32_t width * 10) / (f_cpu / 100000))).

(** [pulse_width] compiled for a clock of [f_cpu] Hz: the width returned
    and the reads that are left. *)
Definition pulse_width_at (f_cpu : Z) (reads : list Z) : option (Z * list Z) :=
  match phase0 reads with
  | None => None
  | Some reads1 =>
      match phase1 reads1 with
      | None => None
      | Some reads2 =>
          match phase2 reads2 0 with
          | None => None
          | Some (width, reads3) => Some (microseconds f_cpu width, reads3)
          end
      end
  end.

Definition pulse_width (reads : list Z) : option (Z * list Z) :=
  pulse_width_at Avr.F_CPU reads.

(** The widths that the successive calls of [pulse_width] return on one
    list of reads, until a call does not return.  A call that returns has
    consumed reads, so as many calls as there are reads are enough. *)
Fixpoint pulses_upto (calls : nat) (reads : list Z) : list Z :=
  match calls with
  | O => []
  | S calls' =>
      match pulse_width reads with
      | None => []
      | Some (w, reads') => w :: pulses_upto calls' reads'
      end
  end.

Definition pulses (reads : list Z) : list Z := pulses_upto (length reads) reads.

(** [main] on a list of reads: the globals when the reads run out and the
    widths emitted so far.  The loop is then blocked in [pulse_width], which
    it calls after the [show_led] that opens the iteration. *)
Definition main (reads : list Z) : Avr.globals * list Z :=
  let '(g, outs) := Avr.run Avr.boot (pulses reads) in
  (Avr.show_led g, outs).

(** One round of the loop under [DEBUG_BIT_PASSTHROUGH]. *)
Definition bit_passthrough (portb pinb : Z) : Z :=
  if high pinb then
    to_uint8_t (Z.lor portb (Z.lor (Z.shiftl 1 Avr.PB3) (Z.shiftl 1 Avr.PB1)))
  else
    to_uint8_t (Z.land portb (Z.lnot (Z.lor (Z.shiftl 1 Avr.PB3) (Z.shiftl 1 Avr.PB1)))).

(** One round of the loop under [DEBUG_PULSE_PASSTHROUGH]; [w] is what
    [pulse_width()] returned.  The result holds the globals and the width
    handed to [send_pulse]. *)
Definition pulse_passthrough (g : Avr.globals) (w : Z) : Avr.globals * Z :=
  let len := to_int16_t w in
  let g :=
    if len <? 1500 then
      Avr.set_PORTB g (Z.land (Avr.PORTB g) (Z.lnot (Z.shiftl 1 Avr.PB1)))
    else Avr.set_PORTB g (Z.lor (Avr.PORTB g) (Z.shiftl 1 Avr.PB1)) in
  (fst (Avr.send_pulse g (to_uint16_t len)), to_uint16_t len).

End Capture.

(** ** The on/off switch firmware ([onoff]) *)

Module OnOff.

(** [F_CPU] has no default in this file: the Makefile passes it. *)
Definition F_CPU : Z := 8000000.

(** The macro [US], applied to a number of microseconds: [n US] expands to
    [n * (F_CPU / 1000) / 1000], computed in [long]. *)
Definition US (n : Z) : Z :=
  to_int32_t (to_int32_t (n * (F_CPU / 1000)) / 1000).

Definition PB0 : Z := 0.
Definition PB1 : Z := 1.
Definition PB2 : Z := 2.

Definition high (pinb : Z) : bool :=
  negb (Z.land pinb (Z.shiftl 1 PB2) =? 0).

(** [while (!(PINB & (1 << PB2)));] *)
Fixpoint wait_high (reads : list Z) : option (list Z) :=
  match reads with
  | [] => None
  | pinb :: reads' => if negb (high pinb) then wait_high reads' else Some reads'
  end.

(** [while (PINB & (1 << PB2)) width += 5;] *)
Fixpoint measure (reads : list Z) (width : Z) : option (Z * list Z) :=
  match reads with
  | [] => None
  | pinb :: reads' =>
      if high pinb then measure reads' (to_uint16_t (width + 5))
      else Some (width, reads')
  end.

(** The two tests on [width], in cycles; [PORTB] is assigned, not masked. *)
Definition switch (portb width : Z) : Z :=
  if width <=? US 1400 then to_uint8_t (Z.shiftl 1 PB0)
  else if width >=? US 1600 then to_uint8_t (Z.shiftl 1 PB1)
  else portb.

(** One round of the [while (1)] loop: [PORTB] after it and the reads left. *)
Definition round (portb : Z) (reads : list Z) : option (Z * list Z) :=
  match wait_high reads with
  | None => None
  | Some reads1 =>
      match measure reads1 0 with
      | None => None
      | Some (width, reads2) => Some (switch portb width, reads2)
      end
  end.

(** The loop, for as many rounds as the reads allow: [PORTB] at the end. *)
Fixpoint rounds (n : nat) (portb : Z) (reads : list Z) : Z :=
  match n with
  | O => portb
  | S n' =>
      match round portb reads with
      | None => portb
      | Some (portb', reads') => rounds n' portb' reads'
      end
  end.

Definition main (reads : list Z) : Z := rounds (length reads) 0 reads.

End OnOff.

(** ** Relations between globals used in the proofs *)

(** Two sets of AVR globals that differ in the lights and the port at most. *)
Definition avr_same (g1 g2 : Avr.globals) : Prop :=
  Avr.state g1 = Avr.state g2 /\ Avr.duration g1 = Avr.duration g2 /\
  Avr.nobst g1 = Avr.nobst g2 /\ Avr.offset g1 = Avr.offset g2.

(** What holds of the AVR globals at the top of every iteration: the
    ranges of the counters, and the sum that [CTR] has gathered so far,
    bounded by the number of samples taken. *)
Definition avr_inv (g : Avr.globals) : Prop :=
  0 <= Avr.nobst g <= 2 * Avr.MAXBURST /\
  0 <= Avr.duration g <= 255 /\
  0 <= Avr.offset g /\
  (Avr.state g = CTR ->
     (Avr.duration g <= 20 /\ Avr.offset g <= 500 * Z.max 0 (Avr.duration g - 10))
     \/ (Avr.duration g = 255 /\ Avr.offset g = 0)) /\
  (Avr.state g <> CTR -> Avr.offset g <= 550).

(** The same two notions for the Arduino build. *)
Definition ino_same (g1 g2 : Arduino.globals) : Prop :=
  Arduino.state g1 = Arduino.state g2 /\ Arduino.duration g1 = Arduino.duration g2 /\
  Arduino.nobst g1 = Arduino.nobst g2 /\ Arduino.offset g1 = Arduino.offset g2.

Definition ino_inv (g : Arduino.globals) : Prop :=
  0 <= Arduino.nobst g <= 2 * Arduino.MAXBURST /\
  0 <= Arduino.duration g <= 1000 /\
  0 <= Arduino.offset g /\
  (Arduino.state g = CTR ->
   Arduino.duration g <= 20 /\
   Arduino.offset g <= 1500 * Z.max 0 (Arduino.duration g - 10)) /\
  (Arduino.state g <> CTR -> Arduino.offset g <= 1650).

(** Every iteration of the run of [ws] from [g] ends in [INI], [REV],
    [STP] or [BRK]: the states in which the burst counter goes down. *)
Fixpoint avr_no_forward (g : Avr.globals) (ws : list Z) : Prop :=
  match ws with
  | [] => True
  | w :: ws' =>
      In (Avr.state (fst (Avr.main_loop g w))) [INI; REV; STP; BRK] /\
      avr_no_forward (fst (Avr.main_loop g w)) ws'
  end.

(** * Properties *)

(** [lia] is taught the Euclidean division, so that it reasons on [/],
    [mod] and the truncating [Z.quot] by constants. *)
Ltac Zify.zify_post_hook ::= Z.to_euclidean_division_equations.

(** ** Tactics

    Unfolding of one function at a time, case analysis on the conditions of
    the C code, innermost first, and linear arithmetic on the unfolded
    conversions. *)

Ltac avr_unfold :=
  cbv beta iota zeta delta
    [Avr.show_led Avr.front_light Avr.center Avr.switch_state
     Avr.cumulate Avr.brake_light Avr.switch_scale Avr.send_pulse Avr.tick
     Avr.set_state Avr.set_duration Avr.set_led Avr.set_nobst Avr.set_offset
     Avr.set_PORTB Avr.set_DDRB Avr.state Avr.duration Avr.led Avr.nobst
     Avr.offset Avr.PORTB Avr.DDRB avr_same state_eqb negb fst snd].

Ltac break_if :=
  repeat (match goal with
          | |- context [if ?b then _ else _] =>
              lazymatch b with
              | context [if _ then _ else _] => fail
              | _ => destruct b
              end
          end; cbv beta iota).

Ltac avr_same_tac :=
  intros;
  repeat match goal with
  | g : Avr.globals |- _ => destruct g as [[] ? ? ? ? ? ?]
  end;
  repeat match goal with
  | H : avr_same _ _ |- _ =>
      cbv [avr_same Avr.state Avr.duration Avr.nobst Avr.offset] in H;
      destruct H as (? & ? & ? & ?); try discriminate; subst
  end;
  avr_unfold; break_if; repeat split; reflexivity.

Ltac break_cmp :=
  repeat (match goal with
          | |- context [if ?b then _ else _] =>
              lazymatch b with
              | context [if _ then _ else _] => fail
              | _ => destruct b eqn:?
              end
          end; cbv beta iota).

Ltac avr_arith :=
  unfold Avr.MARGIN, Avr.FWDFULL, Avr.MAXBURST, Avr.scale_fwd, Avr.scale_rev,
    Avr.recenter, to_uint8_t, to_int8_t, to_int16_t, to_uint16_t in *;
  lia.

(** Premises on the state, once the state is known. *)
Ltac use_state :=
  repeat match goal with
  | H : ?a <> ?b -> _ |- _ =>
      first [ specialize (H ltac:(discriminate)) | clear H ]
  | H : ?a = ?b :> state_t -> _ |- _ =>
      first [ specialize (H eq_refl) | clear H ]
  end.

Ltac ino_unfold :=
  cbv beta iota zeta delta
    [Arduino.calibration_led Arduino.digitalWrite Arduino.center
     Arduino.switch_state Arduino.cumulate Arduino.switch_scale Arduino.tick
     Arduino.set_state Arduino.set_duration Arduino.set_nobst Arduino.set_offset
     Arduino.state Arduino.duration Arduino.nobst Arduino.offset
     Arduino.pin_LED Arduino.pin_OUT Arduino.LED Arduino.PIN_OUT Z.eqb Pos.eqb
     ino_same state_eqb negb fst snd].

Ltac ino_same_tac :=
  intros;
  repeat match goal with
  | g : Arduino.globals |- _ => destruct g as [[] ? ? ? ? ?]
  end;
  repeat match goal with
  | H : ino_same _ _ |- _ =>
      cbv [ino_same Arduino.state Arduino.duration Arduino.nobst Arduino.offset] in H;
      destruct H as (? & ? & ? & ?); try discriminate; subst
  end;
  ino_unfold; break_if; repeat split; reflexivity.

Ltac ino_arith :=
  unfold Arduino.MARGIN, Arduino.FWDFULL, Arduino.MAXBURST, Arduino.scale_fwd,
    Arduino.scale_rev, Arduino.recenter, Arduino.to_int, to_int16_t, to_uint16_t in *;
  lia.

(** ** Conversions that leave the value alone *)

Lemma to_uint16_t_small z : 0 <= z <= 65535 -> to_uint16_t z = z.
Proof. intros; unfold to_uint16_t; apply Z.mod_small; lia. Qed.

Lemma to_int16_t_small z : -32768 <= z <= 32767 -> to_int16_t z = z.
Proof. intros; unfold to_int16_t; rewrite Z.mod_small; lia. Qed.

Lemma to_int32_t_small z : -2147483648 <= z <= 2147483647 -> to_int32_t z = z.
Proof. intros; unfold to_int32_t; rewrite Z.mod_small; lia. Qed.

(** ** The AVR loop body, field by field

    The lights and the output port never feed back into the state machine:
    what an iteration does to [state], [duration], [nobst] and [offset], and
    the width it emits, is read off the two [switch] statements. *)

Lemma avr_same_trans g1 g2 g3 : avr_same g1 g2 -> avr_same g2 g3 -> avr_same g1 g3.
Proof. unfold avr_same; intuition congruence. Qed.

Lemma avr_same_show_led g : avr_same (Avr.show_led g) g.
Proof. avr_same_tac. Qed.

Lemma avr_same_set_led g l : avr_same (Avr.set_led g l) g.
Proof. avr_same_tac. Qed.

Lemma avr_same_front_light g len : avr_same (Avr.front_light g len) g.
Proof. avr_same_tac. Qed.

Lemma avr_same_brake_light g : avr_same (Avr.brake_light g) g.
Proof. avr_same_tac. Qed.

Lemma avr_same_send_pulse g width : avr_same (fst (Avr.send_pulse g width)) g.
Proof. avr_same_tac. Qed.

Lemma avr_same_center g1 g2 w : avr_same g1 g2 -> Avr.center g1 w = Avr.center g2 w.
Proof. avr_same_tac. Qed.

Lemma avr_same_switch_state g1 g2 len :
  avr_same g1 g2 -> avr_same (Avr.switch_state g1 len) (Avr.switch_state g2 len).
Proof. avr_same_tac. Qed.

Lemma avr_same_switch_scale g1 g2 len :
  avr_same g1 g2 ->
  avr_same (fst (Avr.switch_scale g1 len)) (fst (Avr.switch_scale g2 len)) /\
  snd (Avr.switch_scale g1 len) = snd (Avr.switch_scale g2 len).
Proof. avr_same_tac. Qed.

Lemma avr_same_tick g1 g2 : avr_same g1 g2 -> avr_same (Avr.tick g1) (Avr.tick g2).
Proof. avr_same_tac. Qed.

(** One iteration, lights and port left out. *)
Lemma avr_main_loop_same g w :
  let len := Avr.center g w in
  let sc := Avr.switch_scale (Avr.switch_state g len) len in
  avr_same (fst (Avr.main_loop g w)) (Avr.tick (fst sc)) /\
  snd (Avr.main_loop g w) = Avr.recenter (snd sc).
Proof.
  intros len sc. unfold Avr.main_loop.
  set (g0 := Avr.front_light _ _).
  assert (H0 : avr_same g0 g).
  { unfold g0. eapply avr_same_trans; [apply avr_same_front_light|].
    eapply avr_same_trans; [apply avr_same_show_led|].
    eapply avr_same_trans; [apply avr_same_set_led|]. apply avr_same_show_led. }
  rewrite (avr_same_center g0 g w H0). fold len.
  pose proof (avr_same_switch_state g0 g len H0) as H1.
  pose proof (avr_same_trans _ _ _ (avr_same_brake_light _) H1) as H2.
  destruct (avr_same_switch_scale _ _ len H2) as [H3 H4]. fold sc in H3, H4.
  destruct (Avr.switch_scale (Avr.brake_light (Avr.switch_state g0 len)) len) as [g4 len4].
  cbn [fst snd] in *. subst len4. split; [|reflexivity].
  apply avr_same_tick. eapply avr_same_trans; [apply avr_same_send_pulse|exact H3].
Qed.

(** ** The busy-wait loop of [send_pulse] *)

Lemma spin_unfold width n :
  Avr.spin width n =
  if to_uint16_t (width - 1) =? 0 then n
  else Avr.spin (to_uint16_t (width - 1)) (n + 1).
Proof.
  rewrite Avr.spin_equation_1.
  destruct (Z.eq_dec (to_uint16_t (width - 1)) 0) as [e|ne]; simpl.
  - rewrite e. reflexivity.
  - apply Z.eqb_neq in ne. rewrite ne. reflexivity.
Qed.

(** A loop entered with a counter of 1..65535 runs its body one time less
    than the counter says: the pre-decrement eats the bias. *)
Lemma spin_runs width n :
  1 <= width <= 65535 -> Avr.spin width n = n + (width - 1).
Proof.
  intros H. remember (Z.to_nat width) as k eqn:Hk.
  revert width n H Hk. induction k as [|k IH]; intros width n H Hk; [lia|].
  rewrite spin_unfold. unfold to_uint16_t.
  rewrite (Z.mod_small (width - 1)) by lia.
  destruct (Z.eqb_spec (width - 1) 0) as [e|ne]; [lia|].
  rewrite IH by lia. lia.
Qed.

(** Entered with 0 the counter wraps around: the longest pulse there is. *)
Lemma spin_wraps n : Avr.spin 0 n = n + 65535.
Proof.
  rewrite spin_unfold. change (to_uint16_t (0 - 1)) with 65535.
  change (65535 =? 0) with false. cbv iota.
  rewrite spin_runs by lia. lia.
Qed.

(** The loop count [send_pulse] computes is odd, hence never 0. *)
Lemma send_pulse_count width :
  0 <= width <= 65535 ->
  to_uint16_t (to_int32_t (to_int32_t (width * (Avr.F_CPU / 1000000)) / 4 + 1))
  = (2 * width + 1) mod 65536.
Proof.
  intros H. change (Avr.F_CPU / 1000000) with 8.
  rewrite (to_int32_t_small (width * 8)) by lia.
  replace (width * 8 / 4) with (2 * width) by lia.
  rewrite to_int32_t_small by lia. reflexivity.
Qed.

Lemma testbit_to_uint8_t p i : 0 <= i < 8 -> Z.testbit (to_uint8_t p) i = Z.testbit p i.
Proof.
  intros H. unfold to_uint8_t. change 256 with (2 ^ 8).
  apply Z.mod_pow2_bits_low. lia.
Qed.

(** C9: for every width that fits the [uint16_t] parameter, [send_pulse]
    raises PB3, spins and lowers PB3 again; the loop is entered with
    [width * (F_CPU / 1000000) / 4 + 1], the body runs one time less than
    that, and it never runs the 65535 times of a counter that wrapped
    around.  A width of 0 gives the shortest pulse there is: the port goes
    high, the loop body runs 0 times, the port goes low. *)
Theorem send_pulse_minimal_pulse (g : Avr.globals) (width : Z) :
  0 <= width <= 65535 ->
  let count := to_uint16_t (width * (Avr.F_CPU / 1000000) / 4 + 1) in
  let high := to_uint8_t (Z.lor (Avr.PORTB g) (Z.shiftl 1 Avr.PB3)) in
  let low := to_uint8_t (Z.land high (Z.lnot (Z.shiftl 1 Avr.PB3))) in
  snd (Avr.send_pulse g width) = [PortWrite high; Spin (count - 1); PortWrite low] /\
  Avr.PORTB (fst (Avr.send_pulse g width)) = low /\
  Z.testbit high Avr.PB3 = true /\
  Z.testbit low Avr.PB3 = false /\
  1 <= count <= 65535 /\
  (width <= 32767 -> count - 1 = width * (Avr.F_CPU / 1000000) / 4) /\
  (width = 0 -> count - 1 = 0 /\ Avr.spin 0 0 = 65535).
Proof.
  intros H count high low.
  assert (Hc : to_uint16_t (to_int32_t (to_int32_t (width * (Avr.F_CPU / 1000000)) / 4 + 1))
               = count).
  { rewrite send_pulse_count by exact H. unfold count, to_uint16_t.
    change (Avr.F_CPU / 1000000) with 8. f_equal. lia. }
  assert (Hr : 1 <= count <= 65535).
  { unfold count, to_uint16_t. change (Avr.F_CPU / 1000000) with 8. lia. }
  split; [|split; [|split; [|split; [|split; [|split]]]]].
  - unfold Avr.send_pulse. cbn [snd]. rewrite Hc.
    rewrite spin_runs by exact Hr. reflexivity.
  - reflexivity.
  - unfold high, Avr.PB3. rewrite testbit_to_uint8_t by lia.
    rewrite Z.lor_spec. change (Z.testbit (Z.shiftl 1 3) 3) with true.
    apply orb_true_r.
  - unfold low, Avr.PB3. rewrite testbit_to_uint8_t by lia.
    rewrite Z.land_spec. change (Z.testbit (Z.lnot (Z.shiftl 1 3)) 3) with false.
    apply andb_false_r.
  - exact Hr.
  - intros Hw. unfold count, to_uint16_t. change (Avr.F_CPU / 1000000) with 8. lia.
  - intros ->. split; [reflexivity|apply (spin_wraps 0)].
Qed.

Lemma send_pulse_minimal_pulse_witness :
  0 <= 0 <= 65535 /\
  snd (Avr.send_pulse Avr.boot 0) = [PortWrite 8; Spin 0; PortWrite 0].
Proof.
  assert (H : 0 <= 0 <= 65535) by (split; apply Z.leb_le; reflexivity).
  split; [exact H|].
  exact (proj1 (send_pulse_minimal_pulse Avr.boot 0 H)).
Defined.

(** ** One AVR iteration, in terms of its two [switch] statements *)

Lemma avr_tick_keeps g :
  Avr.state (Avr.tick g) = Avr.state g /\ Avr.nobst (Avr.tick g) = Avr.nobst g /\
  Avr.offset (Avr.tick g) = Avr.offset g.
Proof. destruct g; avr_unfold; break_if; auto. Qed.

Lemma avr_switch_scale_keeps g len :
  Avr.state (fst (Avr.switch_scale g len)) = Avr.state g /\
  Avr.duration (fst (Avr.switch_scale g len)) = Avr.duration g /\
  Avr.offset (fst (Avr.switch_scale g len)) = Avr.offset g.
Proof. destruct g as [[] ? ? ? ? ? ?]; avr_unfold; break_if; auto. Qed.

Lemma avr_switch_state_nobst g len :
  Avr.nobst (Avr.switch_state g len) = Avr.nobst g.
Proof. destruct g as [[] ? ? ? ? ? ?]; avr_unfold; break_if; auto. Qed.

Lemma avr_step g w :
  let len := Avr.center g w in
  let g1 := Avr.switch_state g len in
  let g' := fst (Avr.main_loop g w) in
  Avr.state g' = Avr.state g1 /\
  Avr.offset g' = Avr.offset g1 /\
  Avr.duration g' = Avr.duration (Avr.tick g1) /\
  Avr.nobst g' = Avr.nobst (fst (Avr.switch_scale g1 len)) /\
  snd (Avr.main_loop g w) = Avr.recenter (snd (Avr.switch_scale g1 len)).
Proof.
  intros len g1 g'.
  destruct (avr_main_loop_same g w) as [(Hs & Hd & Hn & Ho) Hout].
  fold len g1 g' in Hs, Hd, Hn, Ho, Hout.
  destruct (avr_switch_scale_keeps g1 len) as (Ks & Kd & Ko).
  set (g2 := fst (Avr.switch_scale g1 len)) in *.
  destruct (avr_tick_keeps g2) as (Ts & Tn & To).
  repeat split; try congruence.
  rewrite Hd. unfold Avr.tick. rewrite Kd.
  destruct (Avr.duration g1 <? 255); cbn [Avr.duration Avr.set_duration]; congruence.
Qed.

(** The steps of [run], one at a time and from the far end. *)
Lemma avr_run_cons g w ws :
  Avr.run g (w :: ws)
  = (fst (Avr.run (fst (Avr.main_loop g w)) ws),
     snd (Avr.main_loop g w) :: snd (Avr.run (fst (Avr.main_loop g w)) ws)).
Proof.
  cbn [Avr.run]. destruct (Avr.main_loop g w) as [g1 out]. cbn [fst snd].
  destruct (Avr.run g1 ws) as [g2 outs]. reflexivity.
Qed.

Lemma avr_run_one g w : fst (Avr.run g [w]) = fst (Avr.main_loop g w).
Proof. rewrite avr_run_cons. generalize (Avr.main_loop g w). intros [g1 out]. reflexivity. Qed.

Lemma repeat_snoc {A} (x : A) (n : nat) : repeat x (S n) = repeat x n ++ [x].
Proof. induction n as [|n IH]; [reflexivity|]. cbn [repeat app] in *. rewrite <- IH. reflexivity. Qed.

Lemma avr_run_app g ws1 ws2 :
  Avr.run g (ws1 ++ ws2)
  = (fst (Avr.run (fst (Avr.run g ws1)) ws2),
     snd (Avr.run g ws1) ++ snd (Avr.run (fst (Avr.run g ws1)) ws2)).
Proof.
  revert g. induction ws1 as [|w ws1 IH]; intros g.
  - cbn [app Avr.run fst snd]. destruct (Avr.run g ws2); reflexivity.
  - rewrite <- app_comm_cons, !avr_run_cons, IH. reflexivity.
Qed.

Lemma avr_run_app_fst g ws1 ws2 :
  fst (Avr.run g (ws1 ++ ws2)) = fst (Avr.run (fst (Avr.run g ws1)) ws2).
Proof. rewrite avr_run_app. reflexivity. Qed.

Lemma avr_run_app_snd g ws1 ws2 :
  snd (Avr.run g (ws1 ++ ws2))
  = snd (Avr.run g ws1) ++ snd (Avr.run (fst (Avr.run g ws1)) ws2).
Proof. rewrite avr_run_app. reflexivity. Qed.

(** ** What holds at the top of every AVR iteration *)

Lemma avr_inv_boot : avr_inv Avr.boot.
Proof. unfold avr_inv; cbn; lia. Qed.

Lemma avr_inv_step g w : avr_inv g -> avr_inv (fst (Avr.main_loop g w)).
Proof.
  unfold avr_inv. intros (Hn & Hd & Ho & Hc & Hnc).
  destruct (avr_step g w) as (Es & Eo & Ed & En & _).
  rewrite Es, Eo, Ed, En. clear Es Eo Ed En.
  generalize (Avr.center g w) as len. intros len.
  destruct g as [s d l n o P D]. cbn [Avr.state Avr.duration Avr.nobst Avr.offset] in *.
  destruct s; use_state; avr_unfold; break_cmp; avr_unfold;
    repeat match goal with
    | |- _ /\ _ => split
    | |- _ -> _ => intros ?
    end; try discriminate; try congruence; avr_arith.
Qed.

Lemma avr_inv_run g ws : avr_inv g -> avr_inv (fst (Avr.run g ws)).
Proof.
  revert g. induction ws as [|w ws IH]; intros g Hg.
  - exact Hg.
  - rewrite avr_run_cons. cbn [fst]. apply IH, avr_inv_step, Hg.
Qed.

Lemma avr_inv_reachable g : Avr.reachable g -> avr_inv g.
Proof. intros [ws ->]. apply avr_inv_run, avr_inv_boot. Qed.

(** ** The scaling policy of the AVR build *)

Lemma avr_switch_scale_spec g len :
  -127 <= Avr.nobst g <= 126 ->
  let n' := Avr.nobst (fst (Avr.switch_scale g len)) in
  let len' := snd (Avr.switch_scale g len) in
  match Avr.state g with
  | FWD =>
      n' = (if Avr.nobst g + 1 >=? Avr.MAXBURST then 2 * Avr.MAXBURST else Avr.nobst g + 1) /\
      len' = (if (len <? Avr.FWDFULL) || (n' >=? Avr.MAXBURST) then Avr.scale_fwd len else len)
  | REV => n' = Z.max 0 (Avr.nobst g - 1) /\ len' = Avr.scale_rev len
  | CTR => n' = Avr.nobst g /\ len' = len
  | INI | STP | BRK => n' = Z.max 0 (Avr.nobst g - 1) /\ len' = len
  end.
Proof.
  destruct g as [s d l n o P D]. cbn [Avr.state Avr.nobst]. intros Hn.
  destruct s; avr_unfold; break_cmp; avr_unfold; split;
    try reflexivity; try avr_arith.
Qed.

(** An iteration is named after the state its first [switch] leaves: this
    is the state the scaling [switch] sees and the state at the end of the
    iteration. *)
Lemma avr_scale_step g w :
  -127 <= Avr.nobst g <= 126 ->
  let len := Avr.center g w in
  let n' := Avr.nobst (fst (Avr.main_loop g w)) in
  let out := snd (Avr.main_loop g w) in
  match Avr.state (fst (Avr.main_loop g w)) with
  | FWD =>
      n' = (if Avr.nobst g + 1 >=? Avr.MAXBURST then 2 * Avr.MAXBURST else Avr.nobst g + 1) /\
      out = Avr.recenter
              (if (len <? Avr.FWDFULL) || (n' >=? Avr.MAXBURST) then Avr.scale_fwd len else len)
  | REV => n' = Z.max 0 (Avr.nobst g - 1) /\ out = Avr.recenter (Avr.scale_rev len)
  | CTR => n' = Avr.nobst g /\ out = Avr.recenter len
  | INI | STP | BRK => n' = Z.max 0 (Avr.nobst g - 1) /\ out = Avr.recenter len
  end.
Proof.
  intros Hn len n' out. unfold n', out.
  destruct (avr_step g w) as (Es & _ & _ & En & Eout). fold len in Es, En, Eout.
  rewrite Es, En, Eout.
  pose proof (avr_switch_scale_spec (Avr.switch_state g len) len) as H.
  rewrite avr_switch_state_nobst in H. specialize (H Hn). cbv zeta in H.
  destruct (Avr.state (Avr.switch_state g len)); destruct H as [H1 H2];
    (split; [exact H1 | rewrite H2; reflexivity]).
Qed.

(** A run of Forward iterations either has locked the counter or has
    counted every one of its iterations. *)
Lemma avr_forward_nobst g w :
  avr_inv g -> Avr.state (fst (Avr.main_loop g w)) = FWD ->
  let n' := Avr.nobst (fst (Avr.main_loop g w)) in
  n' = 2 * Avr.MAXBURST \/ (n' = Avr.nobst g + 1 /\ n' < Avr.MAXBURST).
Proof.
  intros (Hn & _) Hfwd n'.
  assert (Hn' : -127 <= Avr.nobst g <= 126) by (unfold Avr.MAXBURST in Hn; lia).
  pose proof (avr_scale_step g w Hn') as Hstep.
  cbv zeta in Hstep. rewrite Hfwd in Hstep. destruct Hstep as [Hn1 _].
  unfold n'. rewrite Hn1.
  destruct (Avr.nobst g + 1 >=? Avr.MAXBURST) eqn:E; [left; reflexivity|right; lia].
Qed.

Lemma avr_forward_run g fs :
  avr_inv g -> fs <> [] -> Avr.all_forward g fs ->
  let n' := Avr.nobst (fst (Avr.run g fs)) in
  n' = 2 * Avr.MAXBURST \/ (n' = Avr.nobst g + Z.of_nat (length fs) /\ n' < Avr.MAXBURST).
Proof.
  revert g. induction fs as [|w fs IH]; intros g Hg Hne Hall; [congruence|].
  destruct Hall as [Hfwd Hall].
  pose proof (avr_inv_step g w Hg) as Hg1.
  pose proof (avr_forward_nobst g w Hg Hfwd) as Hn1.
  intros n'. unfold n'. clear n'. rewrite avr_run_cons.
  clear Hfwd. revert Hall Hg1 Hn1.
  generalize (fst (Avr.main_loop g w)). intros g1 Hall Hg1 Hn1.
  cbv zeta in Hn1. cbn [fst].
  destruct fs as [|w' fs'].
  - exact Hn1.
  - specialize (IH g1 Hg1 ltac:(discriminate) Hall). cbv zeta in IH.
    revert IH. generalize (Avr.nobst (fst (Avr.run g1 (w' :: fs')))).
    intros n' IH.
    change (length (w :: w' :: fs')) with (S (length (w' :: fs'))).
    rewrite Nat2Z.inj_succ.
    pose proof (Nat2Z.is_nonneg (length (w' :: fs'))) as Hk.
    revert Hk IH. generalize (Z.of_nat (length (w' :: fs'))). intros k Hk IH.
    unfold Avr.MAXBURST in Hn1, IH |- *. lia.
Qed.

(** C1: the burst counter is within 0..2*MAXBURST after any number of
    iterations from boot; MAXBURST Forward iterations in a row lock it at
    2*MAXBURST; a Forward iteration that starts with the counter at
    MAXBURST or more emits the width scaled by 2/5, whatever the width, and
    leaves the counter locked; the counter goes down by at most one per
    iteration, and never in a Forward iteration. *)
Theorem burst_counter_bounded_and_locks (ws fs : list Z) (w : Z) :
  let g := fst (Avr.run Avr.boot ws) in
  let g' := fst (Avr.main_loop g w) in
  0 <= Avr.nobst g <= 2 * Avr.MAXBURST /\
  (length fs = Z.to_nat Avr.MAXBURST -> Avr.all_forward g fs ->
   Avr.nobst (fst (Avr.run g fs)) = 2 * Avr.MAXBURST) /\
  (Avr.MAXBURST <= Avr.nobst g -> Avr.state g' = FWD ->
   snd (Avr.main_loop g w) = Avr.recenter (Avr.scale_fwd (Avr.center g w)) /\
   Avr.nobst g' = 2 * Avr.MAXBURST) /\
  Avr.nobst g - 1 <= Avr.nobst g' /\
  (Avr.state g' = FWD -> Avr.nobst g <= Avr.nobst g').
Proof.
  intros g g'.
  assert (Hg : avr_inv g) by (apply avr_inv_run, avr_inv_boot).
  pose proof Hg as (Hn & _).
  pose proof (avr_scale_step g w ltac:(unfold Avr.MAXBURST in *; lia)) as Hstep.
  cbv zeta in Hstep. fold g' in Hstep.
  split; [exact Hn|]. split; [|split; [|split]].
  - intros Hlen Hall.
    destruct (avr_forward_run g fs Hg) as [H|[H1 H2]]; auto.
    + intros ->. discriminate Hlen.
    + exfalso. rewrite Hlen in H1. unfold Avr.MAXBURST in *. lia.
  - intros Hlock Hfwd. rewrite Hfwd in Hstep. destruct Hstep as [H1 H2].
    assert (E : (Avr.nobst g + 1 >=? Avr.MAXBURST) = true) by lia.
    rewrite E in H1. rewrite H1 in H2.
    change (2 * Avr.MAXBURST >=? Avr.MAXBURST) with true in H2.
    rewrite orb_true_r in H2. auto.
  - destruct (Avr.state g'); destruct Hstep as [H1 _]; rewrite H1;
      try lia.
    destruct (Avr.nobst g + 1 >=? Avr.MAXBURST); lia.
  - intros Hfwd. rewrite Hfwd in Hstep. destruct Hstep as [H1 _]. rewrite H1.
    destruct (Avr.nobst g + 1 >=? Avr.MAXBURST); lia.
Qed.

Lemma burst_counter_bounded_and_locks_witness :
  let g := fst (Avr.run Avr.boot (repeat 1500 21 ++ repeat 2000 15)) in
  Avr.nobst g = 30 /\
  Avr.nobst (fst (Avr.run g (repeat 2000 15))) = 30 /\
  snd (Avr.main_loop g 2000) = 1700.
Proof.
  intros g.
  destruct (burst_counter_bounded_and_locks
              (repeat 1500 21 ++ repeat 2000 15) (repeat 2000 15) 2000)
    as (_ & Hrun & Hlock & _ & Hup).
  split; [reflexivity|]. split.
  - apply Hrun; [reflexivity|]. lazy. repeat split.
  - apply Hlock; [lazy; discriminate | reflexivity].
Defined.

(** ** The driving state machine of the AVR build *)

(** Once calibrated, the state machine never goes back to [CTR] and never
    touches [offset]. *)
Lemma avr_switch_state_calibrated g len :
  Avr.state g <> CTR ->
  Avr.state (Avr.switch_state g len) <> CTR /\
  Avr.offset (Avr.switch_state g len) = Avr.offset g.
Proof.
  destruct g as [[] ? ? ? ? ? ?]; cbn [Avr.state]; intros H; try congruence;
    avr_unfold; break_if; split; (discriminate || reflexivity).
Qed.

Lemma avr_center_calibrated g1 g2 w :
  Avr.state g1 <> CTR -> Avr.state g2 <> CTR -> Avr.offset g1 = Avr.offset g2 ->
  Avr.center g1 w = Avr.center g2 w.
Proof.
  unfold Avr.center. intros H1 H2 ->.
  destruct (Avr.state g1), (Avr.state g2); try congruence; reflexivity.
Qed.

(** What [tick] makes of a duration that [switch_state] just reset, or of
    one below the cap. *)
Lemma avr_tick_duration g :
  0 <= Avr.duration g <= 255 ->
  Avr.duration (Avr.tick g) = Z.min 255 (Avr.duration g + 1).
Proof. destruct g; avr_unfold; intros H; break_cmp; avr_unfold; avr_arith. Qed.

(** The three rows of the transition table that leave [INI]. *)
Lemma avr_switch_state_INI g len :
  Avr.state g = INI ->
  (Avr.MARGIN <= len -> Avr.switch_state g len = Avr.set_duration (Avr.set_state g FWD) 0) /\
  (len <= - Avr.MARGIN -> Avr.switch_state g len = Avr.set_duration (Avr.set_state g REV) 0) /\
  (- Avr.MARGIN < len < Avr.MARGIN -> Avr.switch_state g len = g).
Proof.
  destruct g as [s d l n o P D]; cbn [Avr.state]; intros ->.
  unfold Avr.switch_state; cbn [Avr.state].
  repeat split; intros H; break_cmp; try reflexivity; exfalso; avr_arith.
Qed.

(** The rows that release [FWD], [REV] and [BRK] on a reading in the band. *)
Lemma avr_switch_state_release g len :
  In (Avr.state g) [FWD; REV; BRK] ->
  - Avr.MARGIN < len < Avr.MARGIN ->
  Avr.switch_state g len =
  if Avr.duration g >=? 4
  then Avr.set_duration (Avr.set_state g (Avr.released (Avr.state g))) 0
  else g.
Proof.
  destruct g as [s d l n o P D]; cbn [Avr.state Avr.duration In].
  intros [<-|[<-|[<-|[]]]] H; unfold Avr.switch_state; cbn [Avr.state Avr.duration Avr.released];
    break_cmp; try reflexivity; exfalso; avr_arith.
Qed.

(** C7: from [INI], a corrected width of +MARGIN (40) or more takes the
    state machine to [FWD] in that very iteration, with [duration] reset to
    0 by the state machine (hence 1 once the iteration has counted itself);
    a corrected width of -MARGIN or less takes it to [REV] likewise; a
    corrected width strictly inside the band changes nothing, and the
    iteration only counts itself. *)
Theorem idle_leaves_at_margin (g : Avr.globals) (w : Z) :
  Avr.state g = INI ->
  let len := Avr.center g w in
  let g' := fst (Avr.main_loop g w) in
  Avr.MARGIN = 40 /\
  (Avr.MARGIN <= len ->
   Avr.switch_state g len = Avr.set_duration (Avr.set_state g FWD) 0 /\
   Avr.state g' = FWD /\ Avr.duration g' = 1) /\
  (len <= - Avr.MARGIN ->
   Avr.switch_state g len = Avr.set_duration (Avr.set_state g REV) 0 /\
   Avr.state g' = REV /\ Avr.duration g' = 1) /\
  (- Avr.MARGIN < len < Avr.MARGIN ->
   Avr.switch_state g len = g /\
   Avr.state g' = INI /\ Avr.duration g' = Avr.duration (Avr.tick g)).
Proof.
  intros Hs len g'.
  destruct (avr_step g w) as (Es & _ & Ed & _). fold len g' in Es, Ed.
  destruct (avr_switch_state_INI g len Hs) as (Hf & Hr & Hb).
  split; [reflexivity|]. split; [|split]; intros H.
  - specialize (Hf H). rewrite Es, Ed, Hf. repeat split; reflexivity.
  - specialize (Hr H). rewrite Es, Ed, Hr. repeat split; reflexivity.
  - specialize (Hb H). rewrite Es, Ed, Hb.
    split; [reflexivity|split; [exact Hs|reflexivity]].
Qed.

Lemma idle_leaves_at_margin_witness :
  let g := fst (Avr.run Avr.boot (repeat 1500 21)) in
  Avr.state g = INI /\
  (Avr.center g 1540 = 40 /\ Avr.state (fst (Avr.main_loop g 1540)) = FWD) /\
  (Avr.center g 1460 = -40 /\ Avr.state (fst (Avr.main_loop g 1460)) = REV) /\
  (Avr.center g 1500 = 0 /\ Avr.state (fst (Avr.main_loop g 1500)) = INI).
Proof.
  intros g.
  assert (Hs : Avr.state g = INI) by reflexivity.
  split; [exact Hs|]. split; [|split]; (split; [reflexivity|]).
  - destruct (idle_leaves_at_margin g 1540 Hs) as (_ & H & _ & _).
    apply H. apply Z.leb_le. reflexivity.
  - destruct (idle_leaves_at_margin g 1460 Hs) as (_ & _ & H & _).
    apply H. apply Z.leb_le. reflexivity.
  - destruct (idle_leaves_at_margin g 1500 Hs) as (_ & _ & _ & H).
    apply H. split; apply Z.ltb_lt; reflexivity.
Defined.

(** One iteration on a reading in the band, in [FWD], [REV] or [BRK]. *)
Lemma avr_release_step g w :
  In (Avr.state g) [FWD; REV; BRK] -> 0 <= Avr.duration g <= 255 ->
  - Avr.MARGIN < Avr.center g w < Avr.MARGIN ->
  let g' := fst (Avr.main_loop g w) in
  Avr.offset g' = Avr.offset g /\
  (Avr.duration g < 4 -> Avr.state g' = Avr.state g /\ Avr.duration g' = Avr.duration g + 1) /\
  (4 <= Avr.duration g -> Avr.state g' = Avr.released (Avr.state g) /\ Avr.duration g' = 1).
Proof.
  intros Hs Hd Hb g'.
  destruct (avr_step g w) as (Es & Eo & Ed & _). fold g' in Es, Eo, Ed.
  pose proof (avr_switch_state_release g _ Hs Hb) as Hsw.
  assert (Hc : Avr.state g <> CTR).
  { cbn [In] in Hs. destruct Hs as [<-|[<-|[<-|[]]]]; discriminate. }
  destruct (avr_switch_state_calibrated g (Avr.center g w) Hc) as [_ Ho].
  rewrite Es, Eo, Ed. split; [exact Ho|]. rewrite Hsw.
  split; intros H.
  - replace (Avr.duration g >=? 4) with false by lia.
    split; [reflexivity|]. rewrite avr_tick_duration by exact Hd. lia.
  - replace (Avr.duration g >=? 4) with true by lia.
    split; reflexivity.
Qed.

Lemma avr_release_run (k : nat) : forall g w,
  In (Avr.state g) [FWD; REV; BRK] -> 0 <= Avr.duration g ->
  Avr.duration g + Z.of_nat k <= 4 ->
  - Avr.MARGIN < Avr.center g w < Avr.MARGIN ->
  let g' := fst (Avr.run g (repeat w k)) in
  Avr.state g' = Avr.state g /\ Avr.offset g' = Avr.offset g /\
  Avr.duration g' = Avr.duration g + Z.of_nat k.
Proof.
  induction k as [|k IH]; intros g w Hs Hd Hk Hb.
  - cbn [repeat Avr.run fst]. repeat split. lia.
  - change (repeat w (S k)) with (w :: repeat w k). rewrite avr_run_cons.
    destruct (avr_release_step g w Hs ltac:(lia) Hb) as (Ho & Hlt & _).
    destruct (Hlt ltac:(lia)) as [Hs1 Hd1]. clear Hlt.
    assert (Hb1 : - Avr.MARGIN < Avr.center (fst (Avr.main_loop g w)) w < Avr.MARGIN).
    { rewrite (avr_center_calibrated _ g w); [exact Hb| | |exact Ho];
        rewrite ?Hs1; cbn [In] in Hs; destruct Hs as [<-|[<-|[<-|[]]]]; discriminate. }
    revert Ho Hs1 Hd1 Hb1. generalize (fst (Avr.main_loop g w)).
    intros g1 Ho Hs1 Hd1 Hb1. cbn [fst].
    destruct (IH g1 w) as (Hs2 & Ho2 & Hd2); [rewrite Hs1; exact Hs|lia|lia|exact Hb1|].
    rewrite Hs2, Ho2, Hd2, Hs1, Ho, Hd1. repeat split. lia.
Qed.

(** C4, as the claim states it, fails: after five Forward readings the
    state has lasted long enough, and the first reading in the band takes
    the state machine from [FWD] to [STP] at once. *)
Lemma first_in_band_reading_can_stop_forward :
  let g := fst (Avr.run Avr.boot (repeat 1500 21 ++ repeat 1600 5)) in
  Avr.reachable g /\ Avr.state g = FWD /\ Avr.duration g = 5 /\
  - Avr.MARGIN < Avr.center g 1500 < Avr.MARGIN /\
  Avr.state (Avr.switch_state g (Avr.center g 1500)) = STP /\
  Avr.state (fst (Avr.main_loop g 1500)) = STP.
Proof.
  intros g. split; [exists (repeat 1500 21 ++ repeat 1600 5); reflexivity|].
  split; [reflexivity|]. split; [reflexivity|].
  split; [split; apply Z.ltb_lt; reflexivity|].
  split; reflexivity.
Qed.

(** C4, amended: in [FWD], [REV] or [BRK], a corrected width strictly
    inside the band leaves the state alone while the state has lasted less
    than 4 iterations, and releases it ([FWD] to [STP], [REV] and [BRK] to
    [INI], [duration] reset) as soon as the state has lasted 4 iterations or
    more, however few of these readings were in the band.  Right after the
    state was entered ([duration] = 1) this makes three readings in the band
    without effect and the release on the fourth. *)
Theorem release_after_dwell (g : Avr.globals) (w : Z) :
  In (Avr.state g) [FWD; REV; BRK] -> 0 <= Avr.duration g <= 255 ->
  - Avr.MARGIN < Avr.center g w < Avr.MARGIN ->
  let g' := fst (Avr.main_loop g w) in
  (Avr.duration g < 4 ->
   Avr.state g' = Avr.state g /\ Avr.duration g' = Avr.duration g + 1) /\
  (4 <= Avr.duration g ->
   Avr.state g' = Avr.released (Avr.state g) /\ Avr.duration g' = 1) /\
  (Avr.duration g = 1 ->
   Avr.state (fst (Avr.run g (repeat w 3))) = Avr.state g /\
   Avr.duration (fst (Avr.run g (repeat w 3))) = 4 /\
   Avr.state (fst (Avr.run g (repeat w 4))) = Avr.released (Avr.state g)).
Proof.
  intros Hs Hd Hb g'.
  destruct (avr_release_step g w Hs Hd Hb) as (_ & Hlt & Hge).
  split; [exact Hlt|]. split; [exact Hge|]. intros H1.
  destruct (avr_release_run 3 g w Hs ltac:(lia) ltac:(lia) Hb) as (Hs3 & Ho3 & Hd3).
  split; [exact Hs3|]. split; [lia|].
  rewrite (repeat_snoc w 3), avr_run_app_fst.
  assert (Hc : Avr.state g <> CTR).
  { cbn [In] in Hs. destruct Hs as [<-|[<-|[<-|[]]]]; discriminate. }
  assert (Hb3 : - Avr.MARGIN < Avr.center (fst (Avr.run g (repeat w 3))) w < Avr.MARGIN).
  { rewrite (avr_center_calibrated _ g w); [exact Hb|rewrite Hs3; exact Hc|exact Hc|exact Ho3]. }
  revert Hs3 Hd3 Hb3. generalize (fst (Avr.run g (repeat w 3))). intros g3 Hs3 Hd3 Hb3.
  rewrite avr_run_one.
  destruct (avr_release_step g3 w) as (_ & _ & H4); [rewrite Hs3; exact Hs|lia|exact Hb3|].
  destruct (H4 ltac:(lia)) as [Hs4 _]. rewrite Hs4, Hs3. reflexivity.
Qed.

Lemma release_after_dwell_witness :
  let entered := fst (Avr.run Avr.boot (repeat 1500 21 ++ [1600])) in
  let settled := fst (Avr.run Avr.boot (repeat 1500 21 ++ repeat 1600 5)) in
  (Avr.state entered = FWD /\ Avr.duration entered = 1 /\
   Avr.state (fst (Avr.main_loop entered 1500)) = FWD /\
   Avr.state (fst (Avr.run entered (repeat 1500 4))) = STP) /\
  (Avr.state settled = FWD /\ Avr.duration settled = 5 /\
   Avr.state (fst (Avr.main_loop settled 1500)) = STP).
Proof.
  intros entered settled.
  assert (Hband : forall a b c : Z, (a <? b) = true -> (b <? c) = true -> a < b < c).
  { intros a b c H1 H2. split; apply Z.ltb_lt; assumption. }
  split.
  - destruct (release_after_dwell entered 1500) as (Hlt & _ & Hrun).
    + left. reflexivity.
    + split; apply Z.leb_le; reflexivity.
    + apply Hband; reflexivity.
    + split; [reflexivity|]. split; [reflexivity|]. split.
      * apply Hlt. apply Z.ltb_lt. reflexivity.
      * apply Hrun. reflexivity.
  - destruct (release_after_dwell settled 1500) as (_ & Hge & _).
    + left. reflexivity.
    + split; apply Z.leb_le; reflexivity.
    + apply Hband; reflexivity.
    + split; [reflexivity|]. split; [reflexivity|].
      apply Hge. apply Z.leb_le. reflexivity.
Defined.

(** ** The burst allowance *)

(** One iteration on a corrected width of 500, once calibrated. *)
Lemma avr_burst_step g w :
  Avr.state g <> CTR -> Avr.center g w = 500 -> -127 <= Avr.nobst g <= 126 ->
  let g' := fst (Avr.main_loop g w) in
  Avr.state g' = FWD /\ Avr.center g' w = 500 /\
  Avr.nobst g' = (if Avr.nobst g + 1 >=? Avr.MAXBURST then 2 * Avr.MAXBURST
                  else Avr.nobst g + 1) /\
  snd (Avr.main_loop g w) = (if Avr.nobst g + 1 >=? Avr.MAXBURST then 1700 else 2000).
Proof.
  intros Hc Hw Hn g'.
  destruct (avr_step g w) as (Es & Eo & _). fold g' in Es, Eo.
  destruct (avr_switch_state_calibrated g (Avr.center g w) Hc) as [_ Ho].
  assert (Hs : Avr.state g' = FWD).
  { rewrite Es, Hw. clear - Hc.
    destruct g as [[] ? ? ? ? ? ?]; cbn [Avr.state] in Hc; try congruence; reflexivity. }
  pose proof (avr_scale_step g w Hn) as Hstep. cbv zeta in Hstep.
  fold g' in Hstep. rewrite Hs, Hw in Hstep. destruct Hstep as [H1 H2].
  split; [exact Hs|]. split; [|split; [exact H1|]].
  - rewrite (avr_center_calibrated g' g w); [exact Hw|rewrite Hs; discriminate|exact Hc|].
    rewrite Eo. exact Ho.
  - rewrite H2, H1. destruct (Avr.nobst g + 1 >=? Avr.MAXBURST) eqn:E.
    + reflexivity.
    + replace (Avr.nobst g + 1 >=? Avr.MAXBURST) with false; reflexivity.
Qed.

(** While the counter stays below MAXBURST the width goes through. *)
Lemma avr_burst_run (n : nat) : forall g w,
  Avr.state g <> CTR -> Avr.center g w = 500 -> 0 <= Avr.nobst g ->
  Avr.nobst g + Z.of_nat n < Avr.MAXBURST ->
  let g' := fst (Avr.run g (repeat w n)) in
  snd (Avr.run g (repeat w n)) = repeat 2000 n /\
  Avr.state g' <> CTR /\ Avr.center g' w = 500 /\
  Avr.nobst g' = Avr.nobst g + Z.of_nat n.
Proof.
  induction n as [|n IH]; intros g w Hc Hw H0 Hn.
  - cbn [repeat Avr.run fst snd]. repeat split; auto. lia.
  - change (repeat w (S n)) with (w :: repeat w n). rewrite avr_run_cons.
    destruct (avr_burst_step g w Hc Hw) as (Hs1 & Hw1 & Hn1 & Hout).
    { unfold Avr.MAXBURST in Hn. lia. }
    replace (Avr.nobst g + 1 >=? Avr.MAXBURST) with false in Hn1, Hout by lia.
    rewrite Hout. clear Hout. revert Hs1 Hw1 Hn1.
    generalize (fst (Avr.main_loop g w)). intros g1 Hs1 Hw1 Hn1. cbn [fst snd].
    destruct (IH g1 w) as (Ho & Hc2 & Hw2 & Hn2);
      [rewrite Hs1; discriminate|exact Hw1|lia|lia|].
    rewrite Ho. cbn [repeat]. repeat split; auto. lia.
Qed.

(** Once the counter is at MAXBURST - 1 or more, every Forward iteration
    locks it and scales. *)
Lemma avr_locked_run (n : nat) : forall g w,
  Avr.state g <> CTR -> Avr.center g w = 500 ->
  Avr.MAXBURST - 1 <= Avr.nobst g <= 2 * Avr.MAXBURST ->
  snd (Avr.run g (repeat w n)) = repeat 1700 n.
Proof.
  induction n as [|n IH]; intros g w Hc Hw Hn; [reflexivity|].
  change (repeat w (S n)) with (w :: repeat w n). rewrite avr_run_cons.
  destruct (avr_burst_step g w Hc Hw) as (Hs1 & Hw1 & Hn1 & Hout).
  { unfold Avr.MAXBURST in Hn. lia. }
  replace (Avr.nobst g + 1 >=? Avr.MAXBURST) with true in Hn1, Hout by lia.
  rewrite Hout. clear Hout. revert Hs1 Hw1 Hn1.
  generalize (fst (Avr.main_loop g w)). intros g1 Hs1 Hw1 Hn1. cbn [fst snd].
  rewrite IH; [reflexivity|rewrite Hs1; discriminate|exact Hw1|].
  rewrite Hn1. unfold Avr.MAXBURST. lia.
Qed.

Lemma avr_forward_sustained (n : nat) : forall g w,
  Avr.state g <> CTR -> Avr.center g w = 500 ->
  0 <= Avr.nobst g <= 2 * Avr.MAXBURST ->
  Avr.all_forward g (repeat w n).
Proof.
  induction n as [|n IH]; intros g w Hc Hw Hn; [exact I|].
  change (repeat w (S n)) with (w :: repeat w n). cbn [Avr.all_forward].
  destruct (avr_burst_step g w Hc Hw) as (Hs1 & Hw1 & Hn1 & _).
  { unfold Avr.MAXBURST in Hn. lia. }
  split; [exact Hs1|]. apply IH; [rewrite Hs1; discriminate|exact Hw1|].
  rewrite Hn1. destruct (Avr.nobst g + 1 >=? Avr.MAXBURST) eqn:E;
    unfold Avr.MAXBURST in *; lia.
Qed.

(** C5, as the claim states it, fails: with the counter at 0 and the
    corrected width at 500, the 15th Forward iteration in a row (index 14)
    already emits the scaled 1700, not 2000. *)
Lemma fifteenth_forward_iteration_is_scaled :
  let g := fst (Avr.run Avr.boot (repeat 1500 21)) in
  Avr.reachable g /\ Avr.nobst g = 0 /\ Avr.center g 2000 = 500 /\
  Avr.all_forward g (repeat 2000 16) /\
  snd (Avr.run g (repeat 2000 16)) = repeat 2000 14 ++ [1700; 1700] /\
  nth 14 (snd (Avr.run g (repeat 2000 16))) 0 = 1700.
Proof.
  intros g. split; [exists (repeat 1500 21); reflexivity|].
  split; [reflexivity|]. split; [reflexivity|].
  split; [lazy; repeat split|]. split; reflexivity.
Qed.

(** C5, amended: Forward sustained at a corrected width of 500, from a
    burst counter of 0, emits the width unscaled (2000) for the first
    MAXBURST - 1 iterations and scaled by 2/5 (1700) from iteration
    MAXBURST onward, for as long as it lasts. *)
Theorem burst_lasts_maxburst_minus_one (g : Avr.globals) (w : Z) (n : nat) :
  Avr.state g <> CTR -> Avr.nobst g = 0 -> Avr.center g w = 500 ->
  let burst := Z.to_nat (Avr.MAXBURST - 1) in
  Avr.all_forward g (repeat w n) /\
  snd (Avr.run g (repeat w n))
  = repeat (Avr.recenter 500) (Nat.min n burst)
    ++ repeat (Avr.recenter (Avr.scale_fwd 500)) (n - burst) /\
  Avr.recenter 500 = 2000 /\ Avr.recenter (Avr.scale_fwd 500) = 1700.
Proof.
  intros Hc Hn Hw burst.
  split; [apply avr_forward_sustained; auto; rewrite Hn; unfold Avr.MAXBURST; lia|].
  split; [|split; reflexivity].
  change (Avr.recenter 500) with 2000. change (Avr.recenter (Avr.scale_fwd 500)) with 1700.
  change burst with 14%nat. clear burst.
  replace n with (Nat.min n 14 + (n - 14))%nat at 1 by lia.
  rewrite repeat_app, avr_run_app_snd.
  destruct (avr_burst_run (Nat.min n 14) g w Hc Hw) as (Hout & Hc1 & Hw1 & Hn1).
  { lia. } { rewrite Hn. unfold Avr.MAXBURST. lia. }
  rewrite Hout. f_equal.
  destruct (Nat.le_gt_cases n 14) as [Hle|Hgt].
  - replace (n - 14)%nat with 0%nat by lia. reflexivity.
  - apply avr_locked_run; [exact Hc1|exact Hw1|].
    rewrite Hn1, Hn. unfold Avr.MAXBURST. lia.
Qed.

Lemma burst_lasts_maxburst_minus_one_witness :
  let g := fst (Avr.run Avr.boot (repeat 1500 21)) in
  (Avr.state g <> CTR /\ Avr.nobst g = 0 /\ Avr.center g 2000 = 500) /\
  snd (Avr.run g (repeat 2000 16)) = repeat 2000 14 ++ repeat 1700 2.
Proof.
  intros g.
  assert (Hc : Avr.state g <> CTR) by (lazy; discriminate).
  split; [split; [exact Hc|split; reflexivity]|].
  exact (proj1 (proj2 (burst_lasts_maxburst_minus_one g 2000 16 Hc eq_refl eq_refl))).
Defined.

(** ** The Arduino loop, in terms of its two [switch] statements *)

Lemma ino_same_trans g1 g2 g3 : ino_same g1 g2 -> ino_same g2 g3 -> ino_same g1 g3.
Proof. unfold ino_same; intuition congruence. Qed.

Lemma ino_same_calibration_led g len : ino_same (Arduino.calibration_led g len) g.
Proof. ino_same_tac. Qed.

Lemma ino_same_pulse g :
  ino_same (Arduino.digitalWrite (Arduino.digitalWrite g Arduino.PIN_OUT true)
              Arduino.PIN_OUT false) g.
Proof. ino_same_tac. Qed.

Lemma ino_same_switch_state g1 g2 len :
  ino_same g1 g2 -> ino_same (Arduino.switch_state g1 len) (Arduino.switch_state g2 len).
Proof. ino_same_tac. Qed.

Lemma ino_same_switch_scale g1 g2 len :
  ino_same g1 g2 ->
  ino_same (fst (Arduino.switch_scale g1 len)) (fst (Arduino.switch_scale g2 len)) /\
  snd (Arduino.switch_scale g1 len) = snd (Arduino.switch_scale g2 len).
Proof. ino_same_tac. Qed.

Lemma ino_same_tick g1 g2 :
  ino_same g1 g2 -> ino_same (Arduino.tick g1) (Arduino.tick g2).
Proof. ino_same_tac. Qed.

Lemma ino_tick_keeps g :
  Arduino.state (Arduino.tick g) = Arduino.state g /\
  Arduino.nobst (Arduino.tick g) = Arduino.nobst g /\
  Arduino.offset (Arduino.tick g) = Arduino.offset g.
Proof. destruct g; ino_unfold; break_if; auto. Qed.

Lemma ino_switch_scale_keeps g len :
  Arduino.state (fst (Arduino.switch_scale g len)) = Arduino.state g /\
  Arduino.duration (fst (Arduino.switch_scale g len)) = Arduino.duration g /\
  Arduino.offset (fst (Arduino.switch_scale g len)) = Arduino.offset g.
Proof. destruct g as [[] ? ? ? ? ?]; ino_unfold; break_if; auto. Qed.

Lemma ino_switch_state_nobst g len :
  Arduino.nobst (Arduino.switch_state g len) = Arduino.nobst g.
Proof. destruct g as [[] ? ? ? ? ?]; ino_unfold; break_if; auto. Qed.

Lemma ino_step g w :
  let len := Arduino.center g w in
  let g1 := Arduino.switch_state g len in
  let g' := fst (Arduino.loop g w) in
  Arduino.state g' = Arduino.state g1 /\
  Arduino.offset g' = Arduino.offset g1 /\
  Arduino.duration g' = Arduino.duration (Arduino.tick g1) /\
  Arduino.nobst g' = Arduino.nobst (fst (Arduino.switch_scale g1 len)) /\
  snd (Arduino.loop g w) = Arduino.recenter (snd (Arduino.switch_scale g1 len)).
Proof.
  intros len g1 g'. unfold g', Arduino.loop. fold len.
  pose proof (ino_same_switch_state _ g len (ino_same_calibration_led g len)) as H1.
  fold g1 in H1.
  destruct (ino_same_switch_scale _ _ len H1) as [H2 H3].
  destruct (ino_switch_scale_keeps g1 len) as (Ks & Kd & Ko).
  revert H2 H3 Ks Kd Ko.
  generalize (Arduino.switch_scale g1 len).
  generalize (Arduino.switch_scale (Arduino.switch_state (Arduino.calibration_led g len) len) len).
  intros [g2 len2] [g3 len3]. cbn [fst snd]. intros H2 -> Ks Kd Ko.
  pose proof (ino_same_tick _ _ (ino_same_trans _ _ _ (ino_same_pulse g2) H2))
    as (Ts & Td & Tn & To).
  destruct (ino_tick_keeps g3) as (Us & Un & Uo).
  repeat split; try congruence.
  rewrite Td. unfold Arduino.tick.
  cbn [Arduino.duration Arduino.set_duration]. rewrite Kd.
  destruct (Arduino.to_int (Arduino.duration g1 + 1) >? 1000); reflexivity.
Qed.

Lemma ino_run_cons g w ws :
  Arduino.run g (w :: ws)
  = (fst (Arduino.run (fst (Arduino.loop g w)) ws),
     snd (Arduino.loop g w) :: snd (Arduino.run (fst (Arduino.loop g w)) ws)).
Proof.
  cbn [Arduino.run]. destruct (Arduino.loop g w) as [g1 out]. cbn [fst snd].
  destruct (Arduino.run g1 ws) as [g2 outs]. reflexivity.
Qed.

(** ** What holds at the top of every call of the Arduino [loop] *)

Lemma ino_inv_boot : ino_inv Arduino.boot.
Proof. unfold ino_inv; cbn; lia. Qed.

Lemma ino_inv_step g w : ino_inv g -> ino_inv (fst (Arduino.loop g w)).
Proof.
  unfold ino_inv. intros (Hn & Hd & Ho & Hc & Hnc).
  destruct (ino_step g w) as (Es & Eo & Ed & En & _).
  rewrite Es, Eo, Ed, En. clear Es Eo Ed En.
  generalize (Arduino.center g w) as len. intros len.
  destruct g as [s d n o pl po].
  cbn [Arduino.state Arduino.duration Arduino.nobst Arduino.offset] in *.
  destruct s; use_state; ino_unfold; break_cmp; ino_unfold;
    repeat match goal with
    | |- _ /\ _ => split
    | |- _ -> _ => intros ?
    end; try discriminate; try congruence; ino_arith.
Qed.

Lemma ino_inv_run g ws : ino_inv g -> ino_inv (fst (Arduino.run g ws)).
Proof.
  revert g. induction ws as [|w ws IH]; intros g Hg.
  - exact Hg.
  - rewrite ino_run_cons. cbn [fst]. apply IH, ino_inv_step, Hg.
Qed.

Lemma ino_switch_scale_spec g len :
  -32767 <= Arduino.nobst g <= 32766 ->
  let n' := Arduino.nobst (fst (Arduino.switch_scale g len)) in
  let len' := snd (Arduino.switch_scale g len) in
  match Arduino.state g with
  | FWD =>
      n' = (if Arduino.nobst g + 1 >=? Arduino.MAXBURST then 2 * Arduino.MAXBURST
            else Arduino.nobst g + 1) /\
      len' = (if (len <? Arduino.FWDFULL) || (n' >=? Arduino.MAXBURST)
              then Arduino.scale_fwd len else len)
  | REV => n' = Z.max 0 (Arduino.nobst g - 1) /\ len' = Arduino.scale_rev len
  | CTR | INI | STP | BRK => n' = Z.max 0 (Arduino.nobst g - 1) /\ len' = len
  end.
Proof.
  destruct g as [s d n o pl po]. cbn [Arduino.state Arduino.nobst]. intros Hn.
  destruct s; ino_unfold; break_cmp; ino_unfold; split;
    try reflexivity; try ino_arith.
Qed.

Lemma ino_scale_step g w :
  -32767 <= Arduino.nobst g <= 32766 ->
  let len := Arduino.center g w in
  let n' := Arduino.nobst (fst (Arduino.loop g w)) in
  let out := snd (Arduino.loop g w) in
  match Arduino.state (fst (Arduino.loop g w)) with
  | FWD =>
      n' = (if Arduino.nobst g + 1 >=? Arduino.MAXBURST then 2 * Arduino.MAXBURST
            else Arduino.nobst g + 1) /\
      out = Arduino.recenter
              (if (len <? Arduino.FWDFULL) || (n' >=? Arduino.MAXBURST)
               then Arduino.scale_fwd len else len)
  | REV => n' = Z.max 0 (Arduino.nobst g - 1) /\ out = Arduino.recenter (Arduino.scale_rev len)
  | CTR | INI | STP | BRK => n' = Z.max 0 (Arduino.nobst g - 1) /\ out = Arduino.recenter len
  end.
Proof.
  intros Hn len n' out. unfold n', out.
  destruct (ino_step g w) as (Es & _ & _ & En & Eout). fold len in Es, En, Eout.
  rewrite Es, En, Eout.
  pose proof (ino_switch_scale_spec (Arduino.switch_state g len) len) as H.
  rewrite ino_switch_state_nobst in H. specialize (H Hn). cbv zeta in H.
  destruct (Arduino.state (Arduino.switch_state g len)); destruct H as [H1 H2];
    (split; [exact H1 | rewrite H2; reflexivity]).
Qed.

(** ** Scaling outside Forward *)

(** The C expressions on widths that do not overflow the 16 bits. *)
Lemma scaling_arith (x : Z) :
  -1500 <= x <= 16383 ->
  Avr.recenter x = x + 1500 /\ Arduino.recenter x = x + 1500 /\
  Avr.scale_rev x = Z.quot (x * 2) 3 /\
  Arduino.scale_rev x = Z.quot (x * 2) 4 /\ Arduino.scale_rev x = Z.quot x 2 /\
  Avr.scale_fwd x = Z.quot (x * 2) 5.
Proof.
  intros H. unfold Avr.recenter, Arduino.recenter, Avr.scale_rev, Arduino.scale_rev,
    Avr.scale_fwd, Arduino.to_int.
  rewrite (to_int16_t_small (x + 1500)), (to_int16_t_small (x * 2)) by lia.
  rewrite !to_int16_t_small, to_uint16_t_small by lia.
  repeat split; lia.
Qed.

(** C8: an iteration that the state machine leaves in [REV] emits the
    corrected width times 2/3 (AVR build) or times 2/4, that is 1/2
    (Arduino build), re-centered; one it leaves in [INI], [STP] or [BRK]
    emits the corrected width unscaled, re-centered; in both cases the burst
    counter goes down by one and stops at 0.  [CTR] does not scale either.
    On widths the 16 bits hold, the C expressions are the truncating
    divisions they look like and re-centering adds 1500. *)
Theorem scaling_outside_forward (g : Avr.globals) (a : Arduino.globals) (w x : Z) :
  0 <= Avr.nobst g <= 2 * Avr.MAXBURST ->
  0 <= Arduino.nobst a <= 2 * Arduino.MAXBURST ->
  let g' := fst (Avr.main_loop g w) in
  let a' := fst (Arduino.loop a w) in
  (Avr.state g' = REV ->
   snd (Avr.main_loop g w) = Avr.recenter (Avr.scale_rev (Avr.center g w)) /\
   Avr.nobst g' = Z.max 0 (Avr.nobst g - 1)) /\
  (In (Avr.state g') [INI; STP; BRK] ->
   snd (Avr.main_loop g w) = Avr.recenter (Avr.center g w) /\
   Avr.nobst g' = Z.max 0 (Avr.nobst g - 1)) /\
  (Avr.state g' = CTR ->
   snd (Avr.main_loop g w) = Avr.recenter (Avr.center g w)) /\
  (Arduino.state a' = REV ->
   snd (Arduino.loop a w) = Arduino.recenter (Arduino.scale_rev (Arduino.center a w)) /\
   Arduino.nobst a' = Z.max 0 (Arduino.nobst a - 1)) /\
  (In (Arduino.state a') [INI; STP; BRK] ->
   snd (Arduino.loop a w) = Arduino.recenter (Arduino.center a w) /\
   Arduino.nobst a' = Z.max 0 (Arduino.nobst a - 1)) /\
  (Arduino.state a' = CTR ->
   snd (Arduino.loop a w) = Arduino.recenter (Arduino.center a w)) /\
  (-1500 <= x <= 16383 ->
   Avr.recenter x = x + 1500 /\ Arduino.recenter x = x + 1500 /\
   Avr.scale_rev x = Z.quot (x * 2) 3 /\
   Arduino.scale_rev x = Z.quot (x * 2) 4 /\ Arduino.scale_rev x = Z.quot x 2).
Proof.
  intros Hg Ha g' a'.
  pose proof (avr_scale_step g w ltac:(unfold Avr.MAXBURST in Hg; lia)) as Sg.
  pose proof (ino_scale_step a w ltac:(unfold Arduino.MAXBURST in Ha; lia)) as Sa.
  cbv zeta in Sg, Sa. fold g' in Sg. fold a' in Sa.
  split; [|split; [|split; [|split; [|split; [|split]]]]].
  - intros E. rewrite E in Sg. destruct Sg; auto.
  - intros E. cbn [In] in E.
    destruct E as [E|[E|[E|[]]]]; rewrite <- E in Sg; destruct Sg; auto.
  - intros E. rewrite E in Sg. destruct Sg; auto.
  - intros E. rewrite E in Sa. destruct Sa; auto.
  - intros E. cbn [In] in E.
    destruct E as [E|[E|[E|[]]]]; rewrite <- E in Sa; destruct Sa; auto.
  - intros E. rewrite E in Sa. destruct Sa; auto.
  - intros Hx. destruct (scaling_arith x Hx) as (H1 & H2 & H3 & H4 & H5 & _). auto.
Qed.

Lemma scaling_outside_forward_witness :
  let g := fst (Avr.run Avr.boot (repeat 1500 21)) in
  let a := fst (Arduino.run Arduino.boot (repeat 1500 21)) in
  (snd (Avr.main_loop g 1000) = 1167 /\ snd (Arduino.loop a 1000) = 1250) /\
  (snd (Avr.main_loop g 1500) = 1500 /\ snd (Arduino.loop a 1500) = 1500) /\
  (snd (Avr.main_loop Avr.boot 1530) = 1530 /\
   snd (Arduino.loop Arduino.boot 1530) = 1530) /\
  Avr.scale_rev (-500) = -333 /\ Arduino.scale_rev (-500) = -250.
Proof.
  intros g a.
  assert (Hg : 0 <= Avr.nobst g <= 2 * Avr.MAXBURST)
    by (split; apply Z.leb_le; reflexivity).
  assert (Ha : 0 <= Arduino.nobst a <= 2 * Arduino.MAXBURST)
    by (split; apply Z.leb_le; reflexivity).
  assert (Hb : 0 <= Avr.nobst Avr.boot <= 2 * Avr.MAXBURST)
    by (split; apply Z.leb_le; reflexivity).
  assert (Hc : 0 <= Arduino.nobst Arduino.boot <= 2 * Arduino.MAXBURST)
    by (split; apply Z.leb_le; reflexivity).
  assert (Hx : -1500 <= -500 <= 16383) by (split; apply Z.leb_le; reflexivity).
  split; [|split; [|split]].
  - destruct (scaling_outside_forward g a 1000 0 Hg Ha) as (H1 & _ & _ & H2 & _).
    split; [exact (proj1 (H1 eq_refl))|exact (proj1 (H2 eq_refl))].
  - destruct (scaling_outside_forward g a 1500 0 Hg Ha) as (_ & H1 & _ & _ & H2 & _).
    split; [exact (proj1 (H1 (or_introl eq_refl)))|exact (proj1 (H2 (or_introl eq_refl)))].
  - destruct (scaling_outside_forward Avr.boot Arduino.boot 1530 0 Hb Hc)
      as (_ & _ & H1 & _ & _ & H2 & _).
    split; [exact (H1 eq_refl)|exact (H2 eq_refl)].
  - destruct (scaling_outside_forward g a 1500 (-500) Hg Ha) as (_ & _ & _ & _ & _ & _ & H).
    destruct (H Hx) as (_ & _ & H3 & H4 & _). split; [exact H3|exact H4].
Defined.

(** ** Calibration *)

Lemma avr_switch_state_CTR g len :
  Avr.state g = CTR ->
  (len < -500 \/ 500 < len ->
   Avr.switch_state g len = Avr.set_duration g (to_uint8_t (Avr.duration g - 1))) /\
  (-500 <= len <= 500 -> Avr.duration g < 20 ->
   Avr.state (Avr.switch_state g len) = CTR /\
   Avr.duration (Avr.switch_state g len) = Avr.duration g) /\
  (-500 <= len <= 500 -> 20 <= Avr.duration g ->
   Avr.state (Avr.switch_state g len) = INI /\
   Avr.duration (Avr.switch_state g len) = 0).
Proof.
  destruct g as [s d l n o P D]; cbn [Avr.state Avr.duration]; intros ->.
  unfold Avr.switch_state; cbn [Avr.state].
  split; [|split]; intros; avr_unfold; break_cmp; avr_unfold;
    try (split; reflexivity); try reflexivity; exfalso; avr_arith.
Qed.

Lemma ino_switch_state_CTR g len :
  Arduino.state g = CTR ->
  (len < -1500 \/ 1500 < len ->
   Arduino.switch_state g len
   = Arduino.set_duration g (Arduino.to_int (Arduino.duration g - 1))) /\
  (-1500 <= len <= 1500 -> Arduino.duration g < 20 ->
   Arduino.state (Arduino.switch_state g len) = CTR /\
   Arduino.duration (Arduino.switch_state g len) = Arduino.duration g) /\
  (-1500 <= len <= 1500 -> 20 <= Arduino.duration g ->
   Arduino.state (Arduino.switch_state g len) = INI /\
   Arduino.duration (Arduino.switch_state g len) = 0).
Proof.
  destruct g as [s d n o pl po]; cbn [Arduino.state Arduino.duration]; intros ->.
  unfold Arduino.switch_state; cbn [Arduino.state].
  split; [|split]; intros; ino_unfold; break_cmp; ino_unfold;
    try (split; reflexivity); try reflexivity; exfalso; ino_arith.
Qed.

Lemma avr_center_CTR g w :
  Avr.state g = CTR -> Avr.center g w = to_int16_t (to_int16_t w - 1500).
Proof. unfold Avr.center. intros ->. reflexivity. Qed.

Lemma ino_center_CTR g w :
  Arduino.state g = CTR -> Arduino.center g w = to_int16_t (to_int16_t w - 1500).
Proof. unfold Arduino.center. intros ->. reflexivity. Qed.

(** C3: in [CTR], on a reading whose centered value is outside -1500..1500
    (so outside the window of either build), the state machine runs
    [duration--] and nothing else.  In the Arduino build [duration] goes
    down by one, to -1 from 0, and the increment that ends [loop] brings it
    back: the call ends in [CTR] with [duration] and [offset] as they were.
    In the AVR build [duration] goes down by one from 1..255 and the
    iteration ends with [duration], [offset] and [nobst] as they were, but
    from 0, the value at boot, the [uint8_t] wraps to 255 and the iteration
    ends with [duration] = 255. *)
Theorem implausible_reading_in_centering (g : Avr.globals) (a : Arduino.globals) (w : Z) :
  Avr.state g = CTR -> Arduino.state a = CTR ->
  0 <= Avr.duration g <= 255 -> 0 <= Arduino.duration a <= 1000 ->
  0 <= Arduino.nobst a <= 2 * Arduino.MAXBURST ->
  let len := to_int16_t (to_int16_t w - 1500) in
  len < -1500 \/ 1500 < len ->
  let g1 := Avr.switch_state g len in
  let g' := fst (Avr.main_loop g w) in
  let a1 := Arduino.switch_state a len in
  let a' := fst (Arduino.loop a w) in
  (Avr.center g w = len /\
   Avr.duration g1 = (if Avr.duration g =? 0 then 255 else Avr.duration g - 1) /\
   Avr.state g1 = CTR /\ Avr.offset g1 = Avr.offset g /\ Avr.nobst g1 = Avr.nobst g /\
   Avr.duration g' = (if Avr.duration g =? 0 then 255 else Avr.duration g) /\
   Avr.state g' = CTR /\ Avr.offset g' = Avr.offset g /\ Avr.nobst g' = Avr.nobst g /\
   snd (Avr.main_loop g w) = Avr.recenter len) /\
  (Arduino.center a w = len /\
   Arduino.duration a1 = Arduino.duration a - 1 /\
   Arduino.state a1 = CTR /\ Arduino.offset a1 = Arduino.offset a /\
   Arduino.nobst a1 = Arduino.nobst a /\
   Arduino.duration a' = Arduino.duration a /\
   Arduino.state a' = CTR /\ Arduino.offset a' = Arduino.offset a /\
   Arduino.nobst a' = Z.max 0 (Arduino.nobst a - 1) /\
   snd (Arduino.loop a w) = Arduino.recenter len).
Proof.
  intros Hg Ha Hdg Hda Hna len Hout g1 g' a1 a'. split.
  - pose proof (avr_center_CTR g w Hg) as Cg. fold len in Cg.
    destruct (avr_switch_state_CTR g len Hg) as (Sg & _).
    specialize (Sg ltac:(lia)). fold g1 in Sg.
    destruct (avr_step g w) as (Es & Eo & Ed & En & Eout).
    rewrite Cg in Es, Eo, Ed, En, Eout. fold g1 g' in Es, Eo, Ed, En, Eout.
    assert (D1 : Avr.duration g1
                 = (if Avr.duration g =? 0 then 255 else Avr.duration g - 1)).
    { rewrite Sg. cbn [Avr.duration Avr.set_duration]. unfold to_uint8_t.
      destruct (Z.eqb_spec (Avr.duration g) 0) as [E|E]; [rewrite E; reflexivity|].
      apply Z.mod_small. lia. }
    assert (S1 : Avr.state g1 = CTR) by (rewrite Sg; exact Hg).
    assert (Sc : Avr.switch_scale g1 len = (Avr.set_led g1 1, len)).
    { unfold Avr.switch_scale. rewrite S1. reflexivity. }
    rewrite Sc in En, Eout. cbn [fst snd] in En, Eout.
    split; [exact Cg|]. split; [exact D1|]. split; [exact S1|].
    split; [rewrite Sg; reflexivity|]. split; [rewrite Sg; reflexivity|].
    split; [|split; [congruence|split; [|split; [|exact Eout]]]].
    + rewrite Ed, avr_tick_duration; rewrite D1;
        destruct (Z.eqb_spec (Avr.duration g) 0); lia.
    + rewrite Eo, Sg. reflexivity.
    + rewrite En, Sg. reflexivity.
  - pose proof (ino_center_CTR a w Ha) as Ca. fold len in Ca.
    destruct (ino_switch_state_CTR a len Ha) as (Sa & _).
    specialize (Sa Hout). fold a1 in Sa.
    destruct (ino_step a w) as (Es & Eo & Ed & _).
    rewrite Ca in Es, Eo, Ed. fold a1 a' in Es, Eo, Ed.
    pose proof (ino_scale_step a w ltac:(unfold Arduino.MAXBURST in Hna; lia)) as Hsc.
    cbv zeta in Hsc. fold a' in Hsc. rewrite Ca in Hsc.
    assert (D1 : Arduino.duration a1 = Arduino.duration a - 1).
    { rewrite Sa. cbn [Arduino.duration Arduino.set_duration].
      apply to_int16_t_small. lia. }
    assert (S1 : Arduino.state a1 = CTR) by (rewrite Sa; exact Ha).
    assert (S' : Arduino.state a' = CTR) by congruence.
    rewrite S' in Hsc. destruct Hsc as [Hn Hout'].
    split; [exact Ca|]. split; [exact D1|]. split; [exact S1|].
    split; [rewrite Sa; reflexivity|]. split; [rewrite Sa; reflexivity|].
    split; [|split; [exact S'|split; [|split; [exact Hn|exact Hout']]]].
    + rewrite Ed. unfold Arduino.tick.
      cbn [Arduino.duration Arduino.set_duration]. rewrite D1.
      replace (Arduino.duration a - 1 + 1) with (Arduino.duration a) by lia.
      unfold Arduino.to_int. rewrite to_int16_t_small by lia.
      replace (Arduino.duration a >? 1000) with false by lia. reflexivity.
    + rewrite Eo, Sa. reflexivity.
Qed.

Lemma implausible_reading_in_centering_witness :
  (to_int16_t (to_int16_t 3100 - 1500) = 1600 /\
   Avr.state Avr.boot = CTR /\ Avr.duration Avr.boot = 0) /\
  (Avr.duration (Avr.switch_state Avr.boot 1600) = 255 /\
   Avr.duration (fst (Avr.main_loop Avr.boot 3100)) = 255) /\
  (Arduino.duration (Arduino.switch_state Arduino.boot 1600) = -1 /\
   Arduino.duration (fst (Arduino.loop Arduino.boot 3100)) = 0).
Proof.
  split; [repeat split|].
  assert (Hband : forall x y z : Z, (x <=? y) = true -> (y <=? z) = true -> x <= y <= z).
  { intros x y z H1 H2. split; apply Z.leb_le; assumption. }
  assert (Hout : to_int16_t (to_int16_t 3100 - 1500) < -1500
                 \/ 1500 < to_int16_t (to_int16_t 3100 - 1500))
    by (right; apply Z.ltb_lt; reflexivity).
  assert (Hdg : 0 <= Avr.duration Avr.boot <= 255) by (apply Hband; reflexivity).
  assert (Hda : 0 <= Arduino.duration Arduino.boot <= 1000) by (apply Hband; reflexivity).
  assert (Hna : 0 <= Arduino.nobst Arduino.boot <= 2 * Arduino.MAXBURST)
    by (apply Hband; reflexivity).
  destruct (implausible_reading_in_centering Avr.boot Arduino.boot 3100 eq_refl eq_refl
              Hdg Hda Hna Hout)
    as ((_ & H1 & _ & _ & _ & H2 & _) & (_ & H3 & _ & _ & _ & H4 & _)).
  split; split; assumption.
Defined.

Lemma ino_run_app_fst g ws1 ws2 :
  fst (Arduino.run g (ws1 ++ ws2)) = fst (Arduino.run (fst (Arduino.run g ws1)) ws2).
Proof.
  revert g. induction ws1 as [|w ws1 IH]; intros g.
  - reflexivity.
  - rewrite <- app_comm_cons, !ino_run_cons. cbn [fst]. apply IH.
Qed.

Lemma ino_run_one g w : fst (Arduino.run g [w]) = fst (Arduino.loop g w).
Proof. rewrite ino_run_cons. generalize (Arduino.loop g w). intros [g1 out]. reflexivity. Qed.

(** One iteration of either build in [CTR], on a width within 1000..2000. *)
Lemma avr_ctr_step g w :
  Avr.state g = CTR -> 0 <= Avr.duration g <= 255 -> 1000 <= w <= 2000 ->
  let g' := fst (Avr.main_loop g w) in
  (Avr.duration g < 20 -> Avr.state g' = CTR /\ Avr.duration g' = Avr.duration g + 1) /\
  (20 <= Avr.duration g ->
   Avr.state (Avr.switch_state g (Avr.center g w)) = INI /\
   Avr.duration (Avr.switch_state g (Avr.center g w)) = 0 /\
   Avr.state g' = INI /\ Avr.duration g' = 1).
Proof.
  intros Hs Hd Hw g'.
  destruct (avr_step g w) as (Es & _ & Ed & _). fold g' in Es, Ed.
  rewrite (avr_center_CTR g w Hs) in *.
  assert (Hlen : -500 <= to_int16_t (to_int16_t w - 1500) <= 500).
  { rewrite (to_int16_t_small w), to_int16_t_small by lia. lia. }
  destruct (avr_switch_state_CTR g (to_int16_t (to_int16_t w - 1500)) Hs) as (_ & Hlt & Hge).
  split; intros H.
  - destruct (Hlt Hlen H) as [H1 H2]. rewrite Es, Ed. split; [exact H1|].
    rewrite avr_tick_duration by (rewrite H2; exact Hd). rewrite H2. lia.
  - destruct (Hge Hlen H) as [H1 H2]. rewrite Es, Ed.
    split; [exact H1|]. split; [exact H2|]. split; [exact H1|].
    rewrite avr_tick_duration by (rewrite H2; lia). rewrite H2. reflexivity.
Qed.

Lemma ino_tick_duration g :
  0 <= Arduino.duration g <= 1000 ->
  Arduino.duration (Arduino.tick g) = Z.min 1000 (Arduino.duration g + 1).
Proof. destruct g; ino_unfold; intros H; break_cmp; ino_unfold; ino_arith. Qed.

Lemma ino_ctr_step g w :
  Arduino.state g = CTR -> 0 <= Arduino.duration g <= 1000 -> 1000 <= w <= 2000 ->
  let g' := fst (Arduino.loop g w) in
  (Arduino.duration g < 20 ->
   Arduino.state g' = CTR /\ Arduino.duration g' = Arduino.duration g + 1) /\
  (20 <= Arduino.duration g ->
   Arduino.state (Arduino.switch_state g (Arduino.center g w)) = INI /\
   Arduino.duration (Arduino.switch_state g (Arduino.center g w)) = 0 /\
   Arduino.state g' = INI /\ Arduino.duration g' = 1).
Proof.
  intros Hs Hd Hw g'.
  destruct (ino_step g w) as (Es & _ & Ed & _). fold g' in Es, Ed.
  rewrite (ino_center_CTR g w Hs) in *.
  assert (Hlen : -1500 <= to_int16_t (to_int16_t w - 1500) <= 1500).
  { rewrite (to_int16_t_small w), to_int16_t_small by lia. lia. }
  destruct (ino_switch_state_CTR g (to_int16_t (to_int16_t w - 1500)) Hs) as (_ & Hlt & Hge).
  split; intros H.
  - destruct (Hlt Hlen H) as [H1 H2]. rewrite Es, Ed. split; [exact H1|].
    rewrite ino_tick_duration by (rewrite H2; exact Hd). rewrite H2. lia.
  - destruct (Hge Hlen H) as [H1 H2]. rewrite Es, Ed.
    split; [exact H1|]. split; [exact H2|]. split; [exact H1|].
    rewrite ino_tick_duration by (rewrite H2; lia). rewrite H2. reflexivity.
Qed.

Lemma avr_ctr_run (k : nat) : forall g w,
  Avr.state g = CTR -> 0 <= Avr.duration g -> Avr.duration g + Z.of_nat k <= 20 ->
  1000 <= w <= 2000 ->
  let g' := fst (Avr.run g (repeat w k)) in
  Avr.state g' = CTR /\ Avr.duration g' = Avr.duration g + Z.of_nat k.
Proof.
  induction k as [|k IH]; intros g w Hs Hd Hk Hw.
  - cbn [repeat Avr.run fst]. split; [exact Hs|lia].
  - change (repeat w (S k)) with (w :: repeat w k). rewrite avr_run_cons.
    destruct (avr_ctr_step g w Hs ltac:(lia) Hw) as (Hlt & _).
    destruct (Hlt ltac:(lia)) as [Hs1 Hd1]. clear Hlt.
    revert Hs1 Hd1. generalize (fst (Avr.main_loop g w)). intros g1 Hs1 Hd1. cbn [fst].
    destruct (IH g1 w Hs1 ltac:(lia) ltac:(lia) Hw) as [Hs2 Hd2].
    split; [exact Hs2|]. rewrite Hd2, Hd1. lia.
Qed.

Lemma ino_ctr_run (k : nat) : forall g w,
  Arduino.state g = CTR -> 0 <= Arduino.duration g ->
  Arduino.duration g + Z.of_nat k <= 20 -> 1000 <= w <= 2000 ->
  let g' := fst (Arduino.run g (repeat w k)) in
  Arduino.state g' = CTR /\ Arduino.duration g' = Arduino.duration g + Z.of_nat k.
Proof.
  induction k as [|k IH]; intros g w Hs Hd Hk Hw.
  - cbn [repeat Arduino.run fst]. split; [exact Hs|lia].
  - change (repeat w (S k)) with (w :: repeat w k). rewrite ino_run_cons.
    destruct (ino_ctr_step g w Hs ltac:(lia) Hw) as (Hlt & _).
    destruct (Hlt ltac:(lia)) as [Hs1 Hd1]. clear Hlt.
    revert Hs1 Hd1. generalize (fst (Arduino.loop g w)). intros g1 Hs1 Hd1. cbn [fst].
    destruct (IH g1 w Hs1 ltac:(lia) ltac:(lia) Hw) as [Hs2 Hd2].
    split; [exact Hs2|]. rewrite Hd2, Hd1. lia.
Qed.

(** C2, as the claim states it, fails in both builds: after 20 readings of
    1530 from boot the state is still [CTR], with [duration] = 20 and the
    sum 300 in [offset]; the 21st reading ends the calibration, with 33 in
    [offset], which is not 30 within the rounding of a division. *)
Lemma twenty_readings_do_not_end_calibration :
  let g20 := fst (Avr.run Avr.boot (repeat 1530 20)) in
  let g21 := fst (Avr.run Avr.boot (repeat 1530 21)) in
  let a20 := fst (Arduino.run Arduino.boot (repeat 1530 20)) in
  let a21 := fst (Arduino.run Arduino.boot (repeat 1530 21)) in
  (Avr.state g20 = CTR /\ Avr.duration g20 = 20 /\ Avr.offset g20 = 300 /\
   Avr.state g21 = INI /\ Avr.offset g21 = 33) /\
  (Arduino.state a20 = CTR /\ Arduino.duration a20 = 20 /\ Arduino.offset a20 = 300 /\
   Arduino.state a21 = INI /\ Arduino.offset a21 = 33).
Proof. lazy. repeat split. Qed.

(** C2, amended: from boot, 20 readings of one width within 1000..2000
    (1530 is one) leave both builds in [CTR] with [duration] = 20; on the
    21st such reading the state machine goes to [INI] and resets [duration]
    to 0, so that the iteration ends in [INI] with [duration] = 1. *)
Theorem calibration_ends_on_21st_reading (w : Z) :
  1000 <= w <= 2000 ->
  let g20 := fst (Avr.run Avr.boot (repeat w 20)) in
  let a20 := fst (Arduino.run Arduino.boot (repeat w 20)) in
  (Avr.state g20 = CTR /\ Avr.duration g20 = 20 /\
   Avr.state (Avr.switch_state g20 (Avr.center g20 w)) = INI /\
   Avr.duration (Avr.switch_state g20 (Avr.center g20 w)) = 0 /\
   Avr.state (fst (Avr.run Avr.boot (repeat w 21))) = INI /\
   Avr.duration (fst (Avr.run Avr.boot (repeat w 21))) = 1) /\
  (Arduino.state a20 = CTR /\ Arduino.duration a20 = 20 /\
   Arduino.state (Arduino.switch_state a20 (Arduino.center a20 w)) = INI /\
   Arduino.duration (Arduino.switch_state a20 (Arduino.center a20 w)) = 0 /\
   Arduino.state (fst (Arduino.run Arduino.boot (repeat w 21))) = INI /\
   Arduino.duration (fst (Arduino.run Arduino.boot (repeat w 21))) = 1).
Proof.
  intros Hw g20 a20. split.
  - destruct (avr_ctr_run 20 Avr.boot w eq_refl) as [Hs Hd];
      [apply Z.le_refl|apply Z.leb_le; reflexivity|exact Hw|].
    fold g20 in Hs, Hd. change (Avr.duration Avr.boot + Z.of_nat 20) with 20 in Hd.
    rewrite (repeat_snoc w 20), !avr_run_app_fst, avr_run_one. fold g20.
    clearbody g20.
    destruct (avr_ctr_step g20 w Hs ltac:(lia) Hw) as (_ & Hge).
    destruct (Hge ltac:(lia)) as (H1 & H2 & H3 & H4). auto 10.
  - destruct (ino_ctr_run 20 Arduino.boot w eq_refl) as [Hs Hd];
      [apply Z.le_refl|apply Z.leb_le; reflexivity|exact Hw|].
    fold a20 in Hs, Hd. change (Arduino.duration Arduino.boot + Z.of_nat 20) with 20 in Hd.
    rewrite (repeat_snoc w 20), !ino_run_app_fst, ino_run_one. fold a20.
    clearbody a20.
    destruct (ino_ctr_step a20 w Hs ltac:(lia) Hw) as (_ & Hge).
    destruct (Hge ltac:(lia)) as (H1 & H2 & H3 & H4). auto 10.
Qed.

Lemma calibration_ends_on_21st_reading_witness :
  1000 <= 1530 <= 2000 /\
  Avr.state (fst (Avr.run Avr.boot (repeat 1530 21))) = INI /\
  Arduino.state (fst (Arduino.run Arduino.boot (repeat 1530 21))) = INI.
Proof.
  assert (Hw : 1000 <= 1530 <= 2000) by (split; apply Z.leb_le; reflexivity).
  split; [exact Hw|].
  destruct (calibration_ends_on_21st_reading 1530 Hw)
    as ((_ & _ & _ & _ & H1 & _) & (_ & _ & _ & _ & H2 & _)).
  split; [exact H1|exact H2].
Defined.

(** C6: the AVR build at its failing input.  The first pulse after boot
    measures 2500: its centered value 1000 is outside the window, and
    [duration--] on the [uint8_t] takes [duration] from 0 to 255 instead of
    holding it at 0.  The saturating increment then leaves it at 255, and
    the next plausible reading ends the calibration at once, on that single
    sample.  The Arduino build, whose [duration] is an [int], goes to -1 and
    comes back to 0 at the end of the same call. *)
Theorem duration_wraps_on_implausible_first_reading :
  let g1 := fst (Avr.main_loop Avr.boot 2500) in
  let a1 := fst (Arduino.loop Arduino.boot 3500) in
  (Avr.duration Avr.boot = 0 /\ Avr.center Avr.boot 2500 = 1000 /\
   Avr.duration (Avr.switch_state Avr.boot 1000) = 255 /\
   Avr.state g1 = CTR /\ Avr.duration g1 = 255 /\
   Avr.state (fst (Avr.main_loop g1 1530)) = INI /\
   Avr.offset (fst (Avr.main_loop g1 1530)) = 3) /\
  (Arduino.center Arduino.boot 3500 = 2000 /\
   Arduino.duration (Arduino.switch_state Arduino.boot 2000) = -1 /\
   Arduino.state a1 = CTR /\ Arduino.duration a1 = 0 /\
   Arduino.state (fst (Arduino.loop a1 1530)) = CTR).
Proof. lazy. repeat split. Qed.

(** ** The calibration offset *)

Lemma avr_center_calibrated_small g w :
  Avr.state g <> CTR -> 0 <= Avr.offset g <= 550 -> 0 <= w <= 32000 ->
  Avr.center g w = w - 1500 + Avr.offset g.
Proof.
  intros Hs Ho Hw. unfold Avr.center.
  replace (negb (state_eqb (Avr.state g) CTR)) with true
    by (destruct (Avr.state g); try reflexivity; congruence).
  rewrite (to_int16_t_small w), (to_int16_t_small (w - 1500)) by lia.
  apply to_int16_t_small. lia.
Qed.

Lemma ino_center_calibrated_small g w :
  Arduino.state g <> CTR -> 0 <= Arduino.offset g <= 1650 -> 0 <= w <= 32000 ->
  Arduino.center g w = w - 1500 + Arduino.offset g.
Proof.
  intros Hs Ho Hw. unfold Arduino.center, Arduino.to_int.
  replace (negb (state_eqb (Arduino.state g) CTR)) with true
    by (destruct (Arduino.state g); try reflexivity; congruence).
  rewrite (to_int16_t_small w), (to_int16_t_small (w - 1500)) by lia.
  apply to_int16_t_small. lia.
Qed.

Lemma avr_cumulate_abs g len :
  0 <= Avr.offset g <= 5000 -> -500 <= len <= 500 ->
  Avr.offset (Avr.cumulate g len) = Avr.offset g + Z.abs len.
Proof.
  intros Ho Hl. unfold Avr.cumulate.
  destruct (Z.ltb_spec len 0); cbn [Avr.offset Avr.set_offset];
    rewrite to_int16_t_small; lia.
Qed.

Lemma ino_cumulate_abs g len :
  0 <= Arduino.offset g <= 15000 -> -1500 <= len <= 1500 ->
  Arduino.offset (Arduino.cumulate g len) = Arduino.offset g + Z.abs len.
Proof.
  intros Ho Hl. unfold Arduino.cumulate, Arduino.to_int.
  destruct (Z.ltb_spec len 0); cbn [Arduino.offset Arduino.set_offset];
    rewrite to_int16_t_small; lia.
Qed.

(** C10: after any number of iterations from boot, in both builds,
    [offset] is not negative; in [CTR] the accumulation adds the absolute
    value of a plausible deviation, so the sum is not negative either; what
    the state machine leaves in [offset], divided by 10 or not, is not
    negative; and once calibrated, on a raw width up to 32000, the corrected
    width is the centered width plus [offset], never below it. *)
Theorem offset_never_negative (ws : list Z) (w : Z) :
  let g := fst (Avr.run Avr.boot ws) in
  let a := fst (Arduino.run Arduino.boot ws) in
  (0 <= Avr.offset g /\
   0 <= Avr.offset (Avr.switch_state g (Avr.center g w)) /\
   (Avr.state g = CTR -> -500 <= Avr.center g w <= 500 ->
    Avr.offset (Avr.cumulate g (Avr.center g w))
    = Avr.offset g + Z.abs (Avr.center g w)) /\
   (Avr.state g <> CTR -> 0 <= w <= 32000 ->
    Avr.center g w = w - 1500 + Avr.offset g /\ w - 1500 <= Avr.center g w)) /\
  (0 <= Arduino.offset a /\
   0 <= Arduino.offset (Arduino.switch_state a (Arduino.center a w)) /\
   (Arduino.state a = CTR -> -1500 <= Arduino.center a w <= 1500 ->
    Arduino.offset (Arduino.cumulate a (Arduino.center a w))
    = Arduino.offset a + Z.abs (Arduino.center a w)) /\
   (Arduino.state a <> CTR -> 0 <= w <= 32000 ->
    Arduino.center a w = w - 1500 + Arduino.offset a /\ w - 1500 <= Arduino.center a w)).
Proof.
  intros g a. split.
  - assert (Hg : avr_inv g) by (apply avr_inv_run, avr_inv_boot).
    pose proof (avr_inv_step g w Hg) as (_ & _ & Ho1 & _).
    destruct (avr_step g w) as (_ & Eo & _). rewrite Eo in Ho1.
    destruct Hg as (_ & Hd & Ho & Hc & Hnc).
    split; [exact Ho|]. split; [exact Ho1|]. split.
    + intros Hs Hl. apply avr_cumulate_abs; [|exact Hl].
      destruct (Hc Hs) as [[H1 H2]|[H1 H2]]; lia.
    + intros Hs Hw. specialize (Hnc Hs).
      rewrite avr_center_calibrated_small by (auto; lia). split; lia.
  - assert (Ha : ino_inv a) by (apply ino_inv_run, ino_inv_boot).
    pose proof (ino_inv_step a w Ha) as (_ & _ & Ho1 & _).
    destruct (ino_step a w) as (_ & Eo & _). rewrite Eo in Ho1.
    destruct Ha as (_ & Hd & Ho & Hc & Hnc).
    split; [exact Ho|]. split; [exact Ho1|]. split.
    + intros Hs Hl. apply ino_cumulate_abs; [|exact Hl].
      destruct (Hc Hs) as [H1 H2]. lia.
    + intros Hs Hw. specialize (Hnc Hs).
      rewrite ino_center_calibrated_small by (auto; lia). split; lia.
Qed.

Lemma offset_never_negative_witness :
  (let g := fst (Avr.run Avr.boot (repeat 1470 15)) in
   let a := fst (Arduino.run Arduino.boot (repeat 1470 15)) in
   (Avr.center g 1470 = -30 /\ Avr.offset g = 150 /\
    Avr.offset (Avr.cumulate g (Avr.center g 1470)) = 180) /\
   (Arduino.center a 1470 = -30 /\ Arduino.offset a = 150 /\
    Arduino.offset (Arduino.cumulate a (Arduino.center a 1470)) = 180)) /\
  (let g := fst (Avr.run Avr.boot (repeat 1470 21)) in
   let a := fst (Arduino.run Arduino.boot (repeat 1470 21)) in
   (Avr.offset g = 33 /\ Avr.center g 1470 = 3) /\
   (Arduino.offset a = 33 /\ Arduino.center a 1470 = 3)).
Proof.
  assert (Hband : forall a b c : Z, (a <=? b) = true -> (b <=? c) = true -> a <= b <= c).
  { intros a b c H1 H2. split; apply Z.leb_le; assumption. }
  split; intros g a.
  - destruct (offset_never_negative (repeat 1470 15) 1470)
      as ((_ & _ & H1 & _) & (_ & _ & H2 & _)).
    assert (Hg : -500 <= Avr.center g 1470 <= 500) by (apply Hband; reflexivity).
    assert (Ha : -1500 <= Arduino.center a 1470 <= 1500) by (apply Hband; reflexivity).
    split; (split; [reflexivity|split; [reflexivity|]]).
    + exact (H1 eq_refl Hg).
    + exact (H2 eq_refl Ha).
  - destruct (offset_never_negative (repeat 1470 21) 1470)
      as ((_ & _ & _ & H1) & (_ & _ & _ & H2)).
    assert (Hw : 0 <= 1470 <= 32000) by (apply Hband; reflexivity).
    assert (Hg : Avr.state g <> CTR) by (lazy; discriminate).
    assert (Ha : Arduino.state a <> CTR) by (lazy; discriminate).
    split; (split; [reflexivity|]).
    + exact (proj1 (H1 Hg Hw)).
    + exact (proj1 (H2 Ha Hw)).
Defined.

(** * Further properties of the code *)

(** ** [pulse_width]: what it waits for and what it returns *)

Lemma phase0_skips pre lo rest :
  Forall (fun s => Capture.high s = true) pre -> Capture.high lo = false ->
  Capture.phase0 (pre ++ lo :: rest) = Some rest.
Proof.
  intros Hpre Hlo. induction Hpre as [|s pre Hs _ IH]; cbn [app Capture.phase0].
  - rewrite Hlo. reflexivity.
  - rewrite Hs. exact IH.
Qed.

Lemma phase1_skips lows hi rest :
  Forall (fun s => Capture.high s = false) lows -> Capture.high hi = true ->
  Capture.phase1 (lows ++ hi :: rest) = Some rest.
Proof.
  intros Hl Hhi. induction Hl as [|s lows Hs _ IH]; cbn [app Capture.phase1].
  - rewrite Hhi. reflexivity.
  - rewrite Hs. exact IH.
Qed.

Lemma phase2_counts highs lo rest : forall width,
  Forall (fun s => Capture.high s = true) highs -> Capture.high lo = false ->
  0 <= width < 65536 ->
  Capture.phase2 (highs ++ lo :: rest) width
  = Some (to_uint16_t (width + 5 * Z.of_nat (length highs)), rest).
Proof.
  induction highs as [|s highs IH]; intros width Hh Hlo Hw; cbn [app Capture.phase2 length].
  - rewrite Hlo. rewrite to_uint16_t_small by lia. f_equal. f_equal. lia.
  - inversion Hh as [|? ? Hs Hh']; subst. rewrite Hs.
    rewrite IH; [|exact Hh'|exact Hlo|unfold to_uint16_t; lia].
    f_equal. f_equal. unfold to_uint16_t.
    rewrite Zplus_mod_idemp_l. f_equal. lia.
Qed.

Lemma phase0_inv reads rest :
  Capture.phase0 reads = Some rest ->
  exists pre lo, reads = pre ++ lo :: rest /\
    Forall (fun s => Capture.high s = true) pre /\ Capture.high lo = false.
Proof.
  induction reads as [|s reads IH]; cbn [Capture.phase0]; [discriminate|].
  destruct (Capture.high s) eqn:Hs.
  - intros H. destruct (IH H) as (pre & lo & -> & Hpre & Hlo).
    exists (s :: pre), lo. repeat split; auto.
  - intros [= ->]. exists [], s. repeat split; auto.
Qed.

Lemma phase1_inv reads rest :
  Capture.phase1 reads = Some rest ->
  exists lows hi, reads = lows ++ hi :: rest /\
    Forall (fun s => Capture.high s = false) lows /\ Capture.high hi = true.
Proof.
  induction reads as [|s reads IH]; cbn [Capture.phase1]; [discriminate|].
  destruct (Capture.high s) eqn:Hs; cbn [negb].
  - intros [= ->]. exists [], s. repeat split; auto.
  - intros H. destruct (IH H) as (lows & hi & -> & Hl & Hhi).
    exists (s :: lows), hi. repeat split; auto.
Qed.

Lemma phase2_inv reads : forall width w rest,
  Capture.phase2 reads width = Some (w, rest) ->
  exists highs lo, reads = highs ++ lo :: rest /\
    Forall (fun s => Capture.high s = true) highs /\ Capture.high lo = false.
Proof.
  induction reads as [|s reads IH]; intros width w rest; cbn [Capture.phase2];
    [discriminate|].
  destruct (Capture.high s) eqn:Hs.
  - intros H. destruct (IH _ _ _ H) as (highs & lo & -> & Hh & Hlo).
    exists (s :: highs), lo. repeat split; auto.
  - intros [= _ ->]. exists [], s. repeat split; auto.
Qed.

(** The conversion is the floor of cycles * 10^6 / f_cpu whenever the
    clock is a multiple of 100 kHz, at least 1 MHz. *)
Lemma microseconds_floor f_cpu width :
  1000000 <= f_cpu <= 2000000000 -> f_cpu mod 100000 = 0 -> 0 <= width < 65536 ->
  Capture.microseconds f_cpu width = width * 1000000 / f_cpu.
Proof.
  intros Hf Hm Hw. unfold Capture.microseconds.
  assert (Hr : 0 <= width * 1000000 / f_cpu <= 65535).
  { split; [apply Z.div_pos; lia|]. apply Z.div_le_upper_bound; lia. }
  destruct (Z.eqb_spec (f_cpu mod 1000000) 0) as [E|E].
  - remember (f_cpu / 1000000) as m eqn:Em.
    assert (Hm1 : f_cpu = 1000000 * m) by lia.
    assert (Hq : width * 1000000 / f_cpu = width / m).
    { rewrite Hm1. replace (width * 1000000) with (1000000 * width) by lia.
      apply Z.div_mul_cancel_l; lia. }
    rewrite <- Hq, to_int32_t_small, to_uint16_t_small by lia. reflexivity.
  - remember (f_cpu / 100000) as k eqn:Ek.
    assert (Hk : f_cpu = 100000 * k) by lia.
    assert (Hq : width * 1000000 / f_cpu = width * 10 / k).
    { rewrite Hk. replace (width * 1000000) with (100000 * (width * 10)) by lia.
      apply Z.div_mul_cancel_l; lia. }
    unfold Capture.to_uint32_t.
    rewrite (Z.mod_small width), (Z.mod_small (width * 10)) by lia.
    rewrite <- Hq, (Z.mod_small (width * 1000000 / f_cpu)), to_uint16_t_small by lia.
    reflexivity.
Qed.

(** X1: on reads that show the end of a pulse in progress ([pre], all
    high), then low at least once, then high [S n] times, then low,
    [pulse_width] returns after the read of that last low and counts 5
    cycles for each high read but the first, which ended the wait: on the
    8 MHz clock, with [n] up to 13107, the width is 5 n / 8 microseconds. *)
Theorem pulse_width_measures (pre lows highs rest : list Z) (lo0 hi0 lo1 : Z) :
  Forall (fun s => Capture.high s = true) pre ->
  Forall (fun s => Capture.high s = false) (lo0 :: lows) ->
  Forall (fun s => Capture.high s = true) (hi0 :: highs) ->
  Capture.high lo1 = false ->
  let n := Z.of_nat (length highs) in
  Capture.pulse_width (pre ++ (lo0 :: lows) ++ (hi0 :: highs) ++ lo1 :: rest)
  = Some (to_uint16_t (5 * n) / 8, rest) /\
  (n <= 13107 ->
   Capture.pulse_width (pre ++ (lo0 :: lows) ++ (hi0 :: highs) ++ lo1 :: rest)
   = Some (5 * n / 8, rest)).
Proof.
  intros Hpre Hlows Hhighs Hlo1 n.
  inversion Hlows as [|? ? Hlo0 Hlows']; subst.
  inversion Hhighs as [|? ? Hhi0 Hhighs']; subst.
  assert (E : Capture.pulse_width (pre ++ (lo0 :: lows) ++ (hi0 :: highs) ++ lo1 :: rest)
              = Some (to_uint16_t (5 * n) / 8, rest)).
  { unfold Capture.pulse_width, Capture.pulse_width_at.
    rewrite <- !app_comm_cons.
    rewrite (phase0_skips pre lo0 _ Hpre Hlo0).
    rewrite (phase1_skips lows hi0 _ Hlows' Hhi0).
    rewrite (phase2_counts highs lo1 rest 0 Hhighs' Hlo1) by lia.
    fold n. rewrite Z.add_0_l.
    rewrite microseconds_floor;
      [|unfold Avr.F_CPU; lia|reflexivity|unfold to_uint16_t; lia].
    f_equal. f_equal. unfold Avr.F_CPU, to_uint16_t. lia. }
  split; [exact E|]. intros Hn. rewrite E.
  rewrite to_uint16_t_small by lia. reflexivity.
Qed.

Lemma pulse_width_measures_witness :
  Capture.pulse_width ([16; 16; 0; 0; 0] ++ repeat 16 2401 ++ [0; 16])
  = Some (1500, [16]).
Proof.
  assert (H16 : Forall (fun s => Capture.high s = true) (repeat 16 2400)).
  { apply Forall_forall. intros x Hx. apply repeat_spec in Hx. subst x. reflexivity. }
  destruct (pulse_width_measures [16; 16] [0; 0] (repeat 16 2400) [16] 0 16 0) as [_ H].
  - repeat constructor.
  - repeat constructor.
  - constructor; [reflexivity|exact H16].
  - reflexivity.
  - rewrite repeat_length in H. exact (H ltac:(lia)).
Defined.

(** The reads on which [pulse_width] returns, and what it returns. *)
Lemma pulse_width_shape reads rest w :
  Capture.pulse_width reads = Some (w, rest) ->
  exists pre lo0 lows hi0 highs lo1,
    reads = pre ++ (lo0 :: lows) ++ (hi0 :: highs) ++ lo1 :: rest /\
    Forall (fun s => Capture.high s = true) pre /\
    Forall (fun s => Capture.high s = false) (lo0 :: lows) /\
    Forall (fun s => Capture.high s = true) (hi0 :: highs) /\
    Capture.high lo1 = false /\
    w = to_uint16_t (5 * Z.of_nat (length highs)) / 8.
Proof.
  unfold Capture.pulse_width, Capture.pulse_width_at. intros H.
  destruct (Capture.phase0 reads) as [reads1|] eqn:E0; [|discriminate].
  destruct (Capture.phase1 reads1) as [reads2|] eqn:E1; [|discriminate].
  destruct (Capture.phase2 reads2 0) as [[width reads3]|] eqn:E2; [|discriminate].
  injection H as Hw Hrest. subst reads3.
  destruct (phase0_inv _ _ E0) as (pre & lo0 & -> & Hpre & Hlo0).
  destruct (phase1_inv _ _ E1) as (lows & hi0 & -> & Hlows & Hhi0).
  destruct (phase2_inv _ _ _ _ E2) as (highs & lo1 & -> & Hhighs & Hlo1).
  rewrite (phase2_counts highs lo1 rest 0 Hhighs Hlo1) in E2 by lia.
  assert (Ewidth : width = to_uint16_t (5 * Z.of_nat (length highs))).
  { injection E2 as E2. rewrite <- E2. f_equal. }
  subst width.
  rewrite microseconds_floor in Hw;
    [|unfold Avr.F_CPU; lia|reflexivity|unfold to_uint16_t; lia].
  exists pre, lo0, lows, hi0, highs, lo1.
  repeat split; auto.
  rewrite <- Hw. unfold Avr.F_CPU, to_uint16_t. lia.
Qed.

(** X2: [pulse_width] returns only on reads of that shape: a pulse in
    progress or none, a low read, a rising edge, a falling edge; it has
    then consumed at least three reads, and the width is never above 8191
    microseconds, the most the 16 bits of the cycle count allow. *)
Theorem pulse_width_returns_on_a_pulse_only (reads rest : list Z) (w : Z) :
  Capture.pulse_width reads = Some (w, rest) ->
  0 <= w <= 8191 /\
  (3 + length rest <= length reads)%nat /\
  exists pre lo0 lows hi0 highs lo1,
    reads = pre ++ (lo0 :: lows) ++ (hi0 :: highs) ++ lo1 :: rest /\
    Forall (fun s => Capture.high s = true) pre /\
    Forall (fun s => Capture.high s = false) (lo0 :: lows) /\
    Forall (fun s => Capture.high s = true) (hi0 :: highs) /\
    Capture.high lo1 = false /\
    w = to_uint16_t (5 * Z.of_nat (length highs)) / 8.
Proof.
  intros H.
  destruct (pulse_width_shape reads rest w H)
    as (pre & lo0 & lows & hi0 & highs & lo1 & E & Hpre & Hl & Hh & Hlo1 & Ew).
  split; [rewrite Ew; unfold to_uint16_t; lia|]. split.
  - rewrite E, !length_app. cbn [length]. rewrite ?length_app. cbn [length]. lia.
  - exists pre, lo0, lows, hi0, highs, lo1. repeat split; auto;
      (inversion Hl; assumption) || (inversion Hh; assumption) || idtac.
Qed.

Lemma pulse_width_returns_on_a_pulse_only_witness :
  Capture.pulse_width [16; 0; 16; 16; 16; 0; 16] = Some (1, [16]) /\ 0 <= 1 <= 8191.
Proof.
  assert (E : Capture.pulse_width [16; 0; 16; 16; 16; 0; 16] = Some (1, [16]))
    by reflexivity.
  split; [exact E|].
  exact (proj1 (pulse_width_returns_on_a_pulse_only _ _ _ E)).
Defined.

(** X3: a pin that never changes keeps [pulse_width] from returning,
    however long it is read. *)
Theorem pulse_width_blocks_without_edges (reads : list Z) :
  Forall (fun s => Capture.high s = true) reads \/
  Forall (fun s => Capture.high s = false) reads ->
  Capture.pulse_width reads = None.
Proof.
  intros H. destruct (Capture.pulse_width reads) as [[w rest]|] eqn:E; [|reflexivity].
  exfalso.
  destruct (pulse_width_shape reads rest w E)
    as (pre & lo0 & lows & hi0 & highs & lo1 & -> & _ & Hl & Hh & _).
  inversion Hl as [|? ? Hlo0 _]; subst. inversion Hh as [|? ? Hhi0 _]; subst.
  destruct H as [H|H]; rewrite Forall_forall in H.
  - specialize (H lo0). rewrite H in Hlo0; [discriminate|].
    apply in_or_app. right. left. reflexivity.
  - specialize (H hi0). rewrite H in Hhi0; [discriminate|].
    apply in_or_app. right. apply in_or_app. right. left. reflexivity.
Qed.

Lemma pulse_width_blocks_without_edges_witness :
  Capture.pulse_width (repeat 16 5) = None /\ Capture.pulse_width (repeat 0 5) = None.
Proof.
  split; apply pulse_width_blocks_without_edges; [left|right]; repeat constructor.
Defined.

(** ** No 16-bit wrap on measured widths *)

(** The corrected width and the emitted width as integers, on widths up
    to 8191, from globals that satisfy the invariant. *)
Lemma avr_exact_step g w :
  avr_inv g -> 0 <= w <= 8191 ->
  let len := w - 1500 + (if state_eqb (Avr.state g) CTR then 0 else Avr.offset g) in
  let g' := fst (Avr.main_loop g w) in
  Avr.center g w = len /\
  snd (Avr.main_loop g w)
  = 1500 + match Avr.state g' with
           | FWD => if (len <? Avr.FWDFULL) || (Avr.nobst g' >=? Avr.MAXBURST)
                    then Z.quot (len * 2) 5 else len
           | REV => Z.quot (len * 2) 3
           | _ => len
           end /\
  0 <= snd (Avr.main_loop g w) <= 8741.
Proof.
  intros Hg Hw len g'.
  pose proof Hg as (Hn & _ & Ho & Hc & Hnc).
  assert (Hlen : Avr.center g w = len /\ -1500 <= len <= 7241).
  { unfold Avr.center, len.
    rewrite (to_int16_t_small w), (to_int16_t_small (w - 1500)) by lia.
    destruct (state_eqb (Avr.state g) CTR) eqn:E; cbn [negb].
    - split; lia.
    - assert (Avr.state g <> CTR) by (intros E'; rewrite E' in E; discriminate).
      specialize (Hnc H). rewrite to_int16_t_small by lia. split; lia. }
  destruct Hlen as [Hcen Hlen]. split; [exact Hcen|].
  pose proof (avr_scale_step g w ltac:(unfold Avr.MAXBURST in Hn; lia)) as Hstep.
  cbv zeta in Hstep. fold g' in Hstep. rewrite Hcen in Hstep.
  destruct (scaling_arith len ltac:(lia)) as (R & _ & Srev & _ & _ & Sfwd).
  assert (Rf : Avr.recenter (Z.quot (len * 2) 5) = Z.quot (len * 2) 5 + 1500).
  { apply (scaling_arith (Z.quot (len * 2) 5)). lia. }
  assert (Rr : Avr.recenter (Z.quot (len * 2) 3) = Z.quot (len * 2) 3 + 1500).
  { apply (scaling_arith (Z.quot (len * 2) 3)). lia. }
  revert Hstep. generalize (snd (Avr.main_loop g w)). intros out Hstep.
  destruct (Avr.state g'); destruct Hstep as [_ ->];
    rewrite ?Srev, ?Rr, ?R; try (split; lia).
  destruct ((len <? Avr.FWDFULL) || (Avr.nobst g' >=? Avr.MAXBURST));
    rewrite ?Sfwd, ?Rf, ?R; split; lia.
Qed.

Lemma send_pulse_spins p width :
  0 <= width <= 32767 ->
  exists hi lo, snd (Avr.send_pulse p width) = [PortWrite hi; Spin (2 * width); PortWrite lo].
Proof.
  intros H. unfold Avr.send_pulse. cbn [snd]. do 2 eexists.
  rewrite send_pulse_count by lia.
  rewrite (Z.mod_small (2 * width + 1)) by lia.
  rewrite spin_runs by lia. replace (0 + (2 * width + 1 - 1)) with (2 * width) by lia.
  reflexivity.
Qed.

(** X4: for any globals the firmware can reach and any width that
    [pulse_width] returns, no 16-bit computation of the iteration wraps:
    the corrected width is [w - 1500], plus [offset] once calibrated, the
    emitted width is 1500 plus that width, scaled by 2/5 or 2/3 with C's
    truncation where the state asks for it, it lies within 0..8741, and
    [send_pulse] spins exactly twice as many times. *)
Theorem measured_widths_never_wrap (ws reads rest : list Z) (w : Z) :
  Capture.pulse_width reads = Some (w, rest) ->
  let g := fst (Avr.run Avr.boot ws) in
  let len := w - 1500 + (if state_eqb (Avr.state g) CTR then 0 else Avr.offset g) in
  let g' := fst (Avr.main_loop g w) in
  let out := snd (Avr.main_loop g w) in
  Avr.center g w = len /\
  out = 1500 + match Avr.state g' with
               | FWD => if (len <? Avr.FWDFULL) || (Avr.nobst g' >=? Avr.MAXBURST)
                        then Z.quot (len * 2) 5 else len
               | REV => Z.quot (len * 2) 3
               | _ => len
               end /\
  0 <= out <= 8741 /\
  forall p, exists hi lo,
    snd (Avr.send_pulse p out) = [PortWrite hi; Spin (2 * out); PortWrite lo].
Proof.
  intros H g len g' out.
  destruct (pulse_width_shape reads rest w H) as (_ & _ & _ & _ & highs & _ & _ & _ & _ & _ & _ & Ew).
  assert (Hw : 0 <= w <= 8191) by (rewrite Ew; unfold to_uint16_t; lia).
  destruct (avr_exact_step g w (avr_inv_run _ ws avr_inv_boot) Hw) as (H1 & H2 & H3).
  split; [exact H1|]. split; [exact H2|]. split; [exact H3|].
  intros p. apply send_pulse_spins. fold out in H3. lia.
Qed.

Lemma measured_widths_never_wrap_witness :
  let reads := [0; 16] ++ repeat 16 3200 ++ [0] in
  let g := fst (Avr.run Avr.boot (repeat 1500 21)) in
  Capture.pulse_width reads = Some (2000, []) /\
  Avr.center g 2000 = 500 /\ snd (Avr.main_loop g 2000) = 2000.
Proof.
  intros reads g.
  assert (E : Capture.pulse_width reads = Some (2000, [])) by (vm_compute; reflexivity).
  split; [exact E|].
  destruct (measured_widths_never_wrap (repeat 1500 21) reads [] 2000 E) as (H1 & H2 & _).
  split; [exact H1|exact H2].
Defined.

(** ** The firmware on a list of reads *)



Lemma pulses_upto_range (n : nat) : forall reads,
  Forall (fun w => 0 <= w <= 8191) (Capture.pulses_upto n reads).
Proof.
  induction n as [|n IH]; intros reads; cbn [Capture.pulses_upto]; [constructor|].
  destruct (Capture.pulse_width reads) as [[w rest]|] eqn:E; [|constructor].
  constructor; [|apply IH].
  destruct (pulse_width_shape reads rest w E) as (_ & _ & _ & _ & highs & _ & _ & _ & _ & _ & _ & ->).
  unfold to_uint16_t. lia.
Qed.

Lemma pulses_upto_length (n : nat) : forall reads,
  (3 * length (Capture.pulses_upto n reads) <= length reads)%nat.
Proof.
  induction n as [|n IH]; intros reads; cbn [Capture.pulses_upto]; [cbn; lia|].
  destruct (Capture.pulse_width reads) as [[w rest]|] eqn:E; [|cbn; lia].
  destruct (pulse_width_shape reads rest w E)
    as (pre & lo0 & lows & hi0 & highs & lo1 & Er & _).
  assert (Hl : (3 + length rest <= length reads)%nat).
  { rewrite Er, !length_app. cbn [length]. rewrite ?length_app. cbn [length]. lia. }
  cbn [length]. specialize (IH rest). lia.
Qed.

Lemma avr_run_outputs ws : forall g,
  avr_inv g -> Forall (fun w => 0 <= w <= 8191) ws ->
  Forall (fun out => 0 <= out <= 8741) (snd (Avr.run g ws)) /\
  length (snd (Avr.run g ws)) = length ws.
Proof.
  induction ws as [|w ws IH]; intros g Hg Hws.
  - split; [constructor|reflexivity].
  - inversion Hws as [|? ? Hw Hws']; subst.
    rewrite avr_run_cons. cbn [snd length].
    destruct (avr_exact_step g w Hg Hw) as (_ & _ & Hout).
    destruct (IH _ (avr_inv_step g w Hg) Hws') as [H1 H2].
    split; [constructor; assumption|]. rewrite H2. reflexivity.
Qed.

Lemma capture_main_eq reads :
  Capture.main reads
  = (Avr.show_led (fst (Avr.run Avr.boot (Capture.pulses reads))),
     snd (Avr.run Avr.boot (Capture.pulses reads))).
Proof.
  unfold Capture.main. destruct (Avr.run Avr.boot (Capture.pulses reads)). reflexivity.
Qed.

(** X5: whatever is read on the input pin, the firmware emits one pulse
    for each pulse it has measured, at most one for three reads, and every
    width it hands to [send_pulse] lies within 0..8741 microseconds. *)
Theorem main_emits_bounded_widths (reads : list Z) :
  Forall (fun out => 0 <= out <= 8741) (snd (Capture.main reads)) /\
  length (snd (Capture.main reads)) = length (Capture.pulses reads) /\
  (3 * length (snd (Capture.main reads)) <= length reads)%nat.
Proof.
  rewrite capture_main_eq. cbn [snd].
  destruct (avr_run_outputs (Capture.pulses reads) Avr.boot avr_inv_boot
              (pulses_upto_range _ reads)) as [H1 H2].
  split; [exact H1|]. split; [exact H2|].
  rewrite H2. apply pulses_upto_length.
Qed.



(** ** The state machine of both builds, beyond single transitions *)

Lemma ino_switch_state_calibrated g len :
  Arduino.state g <> CTR ->
  Arduino.state (Arduino.switch_state g len) <> CTR /\
  Arduino.offset (Arduino.switch_state g len) = Arduino.offset g.
Proof.
  destruct g as [[] ? ? ? ? ?]; cbn [Arduino.state]; intros H; try congruence;
    ino_unfold; break_if; split; (discriminate || reflexivity).
Qed.

(** X7: once out of [CTR], neither build ever returns to it, and [offset]
    keeps its value for the rest of the run. *)
Theorem calibration_is_final (g : Avr.globals) (a : Arduino.globals) (ws : list Z) :
  Avr.state g <> CTR -> Arduino.state a <> CTR ->
  (Avr.state (fst (Avr.run g ws)) <> CTR /\
   Avr.offset (fst (Avr.run g ws)) = Avr.offset g) /\
  (Arduino.state (fst (Arduino.run a ws)) <> CTR /\
   Arduino.offset (fst (Arduino.run a ws)) = Arduino.offset a).
Proof.
  intros Hg Ha. split.
  - clear Ha. revert g Hg. induction ws as [|w ws IH]; intros g Hg.
    + split; [exact Hg|reflexivity].
    + rewrite avr_run_cons. cbn [fst].
      destruct (avr_step g w) as (Es & Eo & _).
      destruct (avr_switch_state_calibrated g (Avr.center g w) Hg) as [Hs Ho].
      rewrite <- Es in Hs. rewrite <- Eo in Ho. clear Es Eo.
      revert Hs Ho. generalize (fst (Avr.main_loop g w)). intros g1 Hs Ho.
      destruct (IH g1 Hs) as [H1 H2]. split; [exact H1|congruence].
  - clear Hg. revert a Ha. induction ws as [|w ws IH]; intros a Ha.
    + split; [exact Ha|reflexivity].
    + rewrite ino_run_cons. cbn [fst].
      destruct (ino_step a w) as (Es & Eo & _).
      destruct (ino_switch_state_calibrated a (Arduino.center a w) Ha) as [Hs Ho].
      rewrite <- Es in Hs. rewrite <- Eo in Ho. clear Es Eo.
      revert Hs Ho. generalize (fst (Arduino.loop a w)). intros a1 Hs Ho.
      destruct (IH a1 Hs) as [H1 H2]. split; [exact H1|congruence].
Qed.

Lemma calibration_is_final_witness :
  let g := fst (Avr.run Avr.boot (repeat 1470 21)) in
  let a := fst (Arduino.run Arduino.boot (repeat 1470 21)) in
  (Avr.state g <> CTR /\ Arduino.state a <> CTR) /\
  Avr.offset (fst (Avr.run g [1000; 2000; 1500])) = 33 /\
  Arduino.offset (fst (Arduino.run a [1000; 2000; 1500])) = 33.
Proof.
  intros g a.
  assert (Hg : Avr.state g <> CTR) by (lazy; discriminate).
  assert (Ha : Arduino.state a <> CTR) by (lazy; discriminate).
  split; [split; assumption|].
  destruct (calibration_is_final g a [1000; 2000; 1500] Hg Ha) as [[_ H1] [_ H2]].
  split; [exact H1|exact H2].
Defined.

Lemma avr_switch_state_moves g len :
  let g1 := Avr.switch_state g len in
  (Avr.state g1 <> Avr.state g -> Avr.duration g1 = 0) /\
  (Avr.state g1 = Avr.state g -> Avr.state g <> CTR -> g1 = g) /\
  (Avr.state g1 = REV -> Avr.state g = INI \/ Avr.state g = REV) /\
  (Avr.state g1 = BRK ->
   Avr.state g = FWD \/ Avr.state g = STP \/ Avr.state g = BRK) /\
  (Avr.state g1 = INI ->
   Avr.state g = CTR \/ Avr.state g = INI \/ Avr.state g = REV \/ Avr.state g = BRK) /\
  (Avr.state g1 = STP -> Avr.state g = FWD \/ Avr.state g = STP).
Proof.
  destruct g as [[] ? ? ? ? ? ?]; avr_unfold; break_if;
    (split; [|split; [|split; [|split; [|split]]]]); intros;
    first [reflexivity | discriminate | contradiction | congruence | tauto].
Qed.

Lemma ino_switch_state_moves g len :
  let g1 := Arduino.switch_state g len in
  (Arduino.state g1 <> Arduino.state g -> Arduino.duration g1 = 0) /\
  (Arduino.state g1 = Arduino.state g -> Arduino.state g <> CTR -> g1 = g) /\
  (Arduino.state g1 = REV -> Arduino.state g = INI \/ Arduino.state g = REV) /\
  (Arduino.state g1 = BRK ->
   Arduino.state g = FWD \/ Arduino.state g = STP \/ Arduino.state g = BRK) /\
  (Arduino.state g1 = INI ->
   Arduino.state g = CTR \/ Arduino.state g = INI \/ Arduino.state g = REV
   \/ Arduino.state g = BRK) /\
  (Arduino.state g1 = STP -> Arduino.state g = FWD \/ Arduino.state g = STP).
Proof.
  destruct g as [[] ? ? ? ? ?]; ino_unfold; break_if;
    (split; [|split; [|split; [|split; [|split]]]]); intros;
    first [reflexivity | discriminate | contradiction | congruence | tauto].
Qed.



(** X9: in both builds [duration] counts the iterations since the state
    was entered: an iteration that changes the state ends with
    [duration] = 1; one that keeps a state other than [CTR], on globals
    within their range, ends with [duration] one higher, capped at 255 (AVR
    build) or 1000 (Arduino build). *)
Theorem duration_restarts_with_the_state (g : Avr.globals) (a : Arduino.globals) (w : Z) :
  0 <= Avr.duration g <= 255 -> 0 <= Arduino.duration a <= 1000 ->
  let g' := fst (Avr.main_loop g w) in
  let a' := fst (Arduino.loop a w) in
  (Avr.state g' <> Avr.state g -> Avr.duration g' = 1) /\
  (Avr.state g' = Avr.state g -> Avr.state g <> CTR ->
   Avr.duration g' = Z.min 255 (Avr.duration g + 1)) /\
  (Arduino.state a' <> Arduino.state a -> Arduino.duration a' = 1) /\
  (Arduino.state a' = Arduino.state a -> Arduino.state a <> CTR ->
   Arduino.duration a' = Z.min 1000 (Arduino.duration a + 1)).
Proof.
  intros Hg Ha g' a'.
  destruct (avr_step g w) as (Es & _ & Ed & _). fold g' in Es, Ed.
  destruct (ino_step a w) as (Fs & _ & Fd & _). fold a' in Fs, Fd.
  destruct (avr_switch_state_moves g (Avr.center g w)) as (G0 & G1 & _).
  destruct (ino_switch_state_moves a (Arduino.center a w)) as (A0 & A1 & _).
  rewrite Es, Ed, Fs, Fd. clear Es Ed Fs Fd.
  split; [|split; [|split]].
  - intros H. specialize (G0 H).
    rewrite avr_tick_duration by (rewrite G0; lia). rewrite G0. reflexivity.
  - intros H Hc. rewrite (G1 H Hc). apply avr_tick_duration, Hg.
  - intros H. specialize (A0 H).
    rewrite ino_tick_duration by (rewrite A0; lia). rewrite A0. reflexivity.
  - intros H Hc. rewrite (A1 H Hc). apply ino_tick_duration, Ha.
Qed.

Lemma duration_restarts_with_the_state_witness :
  let g := fst (Avr.run Avr.boot (repeat 1500 30)) in
  let a := fst (Arduino.run Arduino.boot (repeat 1500 30)) in
  (Avr.duration g = 10 /\ Arduino.duration a = 10) /\
  (Avr.duration (fst (Avr.main_loop g 1600)) = 1 /\
   Arduino.duration (fst (Arduino.loop a 1600)) = 1) /\
  (Avr.duration (fst (Avr.main_loop g 1500)) = 11 /\
   Arduino.duration (fst (Arduino.loop a 1500)) = 11).
Proof.
  intros g a.
  assert (Hg : 0 <= Avr.duration g <= 255) by (split; apply Z.leb_le; reflexivity).
  assert (Ha : 0 <= Arduino.duration a <= 1000) by (split; apply Z.leb_le; reflexivity).
  split; [split; reflexivity|]. split.
  - destruct (duration_restarts_with_the_state g a 1600 Hg Ha) as (H1 & _ & H2 & _).
    split; [apply H1|apply H2]; lazy; discriminate.
  - destruct (duration_restarts_with_the_state g a 1500 Hg Ha) as (_ & H1 & _ & H2).
    assert (Eg : Avr.state (fst (Avr.main_loop g 1500)) = Avr.state g)
      by (lazy; reflexivity).
    assert (Ea : Arduino.state (fst (Arduino.loop a 1500)) = Arduino.state a)
      by (lazy; reflexivity).
    split; [apply (H1 Eg)|apply (H2 Ea)]; lazy; discriminate.
Defined.

(** X10: the two builds run the same state machine.  On equal [state],
    [duration] and [offset], and a corrected width that either finds the
    state out of [CTR] or lies within the narrower window of the AVR build,
    the first [switch] of both builds leaves equal [state], [duration] and
    [offset]. *)
Theorem builds_share_the_state_machine (g : Avr.globals) (a : Arduino.globals) (len : Z) :
  Avr.state g = Arduino.state a -> Avr.duration g = Arduino.duration a ->
  Avr.offset g = Arduino.offset a ->
  Avr.state g <> CTR \/ -500 <= len <= 500 ->
  Avr.state (Avr.switch_state g len) = Arduino.state (Arduino.switch_state a len) /\
  Avr.duration (Avr.switch_state g len) = Arduino.duration (Arduino.switch_state a len) /\
  Avr.offset (Avr.switch_state g len) = Arduino.offset (Arduino.switch_state a len).
Proof.
  destruct g as [s d l n o P D], a as [s' d' n' o' pl po].
  cbn [Avr.state Avr.duration Avr.offset Arduino.state Arduino.duration Arduino.offset].
  intros <- <- <- H.
  destruct s; avr_unfold; ino_unfold;
    unfold Avr.MARGIN, Arduino.MARGIN, Arduino.to_int;
    try (break_if; repeat split; reflexivity).
  destruct H as [H|H]; [congruence|].
  replace ((len <? -500) || (len >? 500)) with false by lia.
  replace ((len <? -1500) || (len >? 1500)) with false by lia.
  break_if; repeat split; reflexivity.
Qed.

Lemma builds_share_the_state_machine_witness :
  Avr.state (Avr.switch_state Avr.boot 30)
  = Arduino.state (Arduino.switch_state Arduino.boot 30).
Proof.
  refine (proj1 (builds_share_the_state_machine Avr.boot Arduino.boot 30
                   eq_refl eq_refl eq_refl _)).
  right. split; apply Z.leb_le; reflexivity.
Defined.

(** ** The on/off switch *)

Lemma onoff_wait_high_skips lows hi rest :
  Forall (fun s => OnOff.high s = false) lows -> OnOff.high hi = true ->
  OnOff.wait_high (lows ++ hi :: rest) = Some rest.
Proof.
  intros Hl Hhi. induction Hl as [|s lows Hs _ IH]; cbn [app OnOff.wait_high].
  - rewrite Hhi. reflexivity.
  - rewrite Hs. exact IH.
Qed.

Lemma onoff_measure_counts highs lo rest : forall width,
  Forall (fun s => OnOff.high s = true) highs -> OnOff.high lo = false ->
  0 <= width < 65536 ->
  OnOff.measure (highs ++ lo :: rest) width
  = Some (to_uint16_t (width + 5 * Z.of_nat (length highs)), rest).
Proof.
  induction highs as [|s highs IH]; intros width Hh Hlo Hw; cbn [app OnOff.measure length].
  - rewrite Hlo. rewrite to_uint16_t_small by lia. f_equal. f_equal. lia.
  - inversion Hh as [|? ? Hs Hh']; subst. rewrite Hs.
    rewrite IH; [|exact Hh'|exact Hlo|unfold to_uint16_t; lia].
    f_equal. f_equal. unfold to_uint16_t.
    rewrite Zplus_mod_idemp_l. f_equal. lia.
Qed.

Lemma onoff_thresholds : OnOff.US 1400 = 11200 /\ OnOff.US 1600 = 12800.
Proof. split; reflexivity. Qed.

(** X11: one round of the on/off loop.  On reads that are low, then high
    [S n] times, then low, the round ends after that last read with 5 n
    cycles counted (modulo 2^16).  Up to 2240 counted reads (1400
    microseconds) it turns PB0 on and PB1 off; from 2560 (1600
    microseconds) up to 13107 it turns PB1 on and PB0 off; in between it
    leaves [PORTB] as it was. *)
Theorem onoff_round_switches (portb : Z) (lows highs rest : list Z) (hi0 lo1 : Z) :
  Forall (fun s => OnOff.high s = false) lows ->
  Forall (fun s => OnOff.high s = true) (hi0 :: highs) ->
  OnOff.high lo1 = false ->
  let n := Z.of_nat (length highs) in
  let reads := lows ++ (hi0 :: highs) ++ lo1 :: rest in
  OnOff.round portb reads = Some (OnOff.switch portb (to_uint16_t (5 * n)), rest) /\
  (n <= 2240 -> OnOff.round portb reads = Some (1, rest)) /\
  (2240 < n < 2560 -> OnOff.round portb reads = Some (portb, rest)) /\
  (2560 <= n <= 13107 -> OnOff.round portb reads = Some (2, rest)).
Proof.
  intros Hl Hh Hlo n reads.
  inversion Hh as [|? ? Hhi0 Hh']; subst.
  assert (E : OnOff.round portb reads
              = Some (OnOff.switch portb (to_uint16_t (5 * n)), rest)).
  { unfold OnOff.round, reads. rewrite <- app_comm_cons.
    rewrite (onoff_wait_high_skips lows hi0 _ Hl Hhi0).
    rewrite (onoff_measure_counts highs lo1 rest 0 Hh' Hlo) by lia.
    rewrite Z.add_0_l. reflexivity. }
  destruct onoff_thresholds as [T1 T2].
  split; [exact E|]. rewrite E. unfold OnOff.switch. rewrite T1, T2.
  split; [|split]; intros Hn; rewrite to_uint16_t_small by lia.
  - replace (5 * n <=? 11200) with true by lia. reflexivity.
  - replace (5 * n <=? 11200) with false by lia.
    replace (5 * n >=? 12800) with false by lia. reflexivity.
  - replace (5 * n <=? 11200) with false by lia.
    replace (5 * n >=? 12800) with true by lia. reflexivity.
Qed.

Lemma onoff_round_switches_witness :
  OnOff.round 2 ([0; 0; 4] ++ repeat 4 1600 ++ [0; 4]) = Some (1, [4]).
Proof.
  assert (H4 : Forall (fun s => OnOff.high s = true) (repeat 4 1600)).
  { apply Forall_forall. intros x Hx. apply repeat_spec in Hx. subst x. reflexivity. }
  destruct (onoff_round_switches 2 [0; 0] (repeat 4 1600) [4] 4 0) as (_ & H & _).
  - repeat constructor.
  - constructor; [reflexivity|exact H4].
  - reflexivity.
  - rewrite repeat_length in H. exact (H ltac:(lia)).
Defined.

Lemma onoff_switch_exclusive portb width :
  portb = 0 \/ portb = 1 \/ portb = 2 ->
  OnOff.switch portb width = 0 \/ OnOff.switch portb width = 1
  \/ OnOff.switch portb width = 2.
Proof.
  intros H. unfold OnOff.switch.
  destruct (width <=? OnOff.US 1400); [right; left; reflexivity|].
  destruct (width >=? OnOff.US 1600); [right; right; reflexivity|exact H].
Qed.

Lemma onoff_rounds_exclusive (n : nat) : forall portb reads,
  portb = 0 \/ portb = 1 \/ portb = 2 ->
  OnOff.rounds n portb reads = 0 \/ OnOff.rounds n portb reads = 1
  \/ OnOff.rounds n portb reads = 2.
Proof.
  induction n as [|n IH]; intros portb reads H; cbn [OnOff.rounds]; [exact H|].
  unfold OnOff.round.
  destruct (OnOff.wait_high reads) as [reads1|]; [|exact H].
  destruct (OnOff.measure reads1 0) as [[width reads2]|]; [|exact H].
  apply IH, onoff_switch_exclusive, H.
Qed.

(** X12: whatever is read on the input pin, the on/off firmware never has
    both outputs on: [PORTB] is 0 (since reset), 1 (PB0 only) or 2 (PB1
    only), and no other pin of the port is ever driven. *)
Theorem onoff_outputs_exclusive (reads : list Z) :
  OnOff.main reads = 0 \/ OnOff.main reads = 1 \/ OnOff.main reads = 2.
Proof. apply onoff_rounds_exclusive. left. reflexivity. Qed.

(** X13: the macro [US] turns microseconds into cycles without leaving
    the [long]: up to 268435 microseconds it is the exact product by
    [F_CPU] / 10^6, whereas the product by [F_CPU] itself does not fit a
    [long] from 269 microseconds on. *)
Theorem onoff_us_does_not_overflow (n : Z) :
  0 <= n <= 268435 ->
  OnOff.US n = n * OnOff.F_CPU / 1000000 /\
  OnOff.US n = 8 * n /\
  (269 <= n -> to_int32_t (n * OnOff.F_CPU) <> n * OnOff.F_CPU).
Proof.
  intros H. unfold OnOff.US, OnOff.F_CPU.
  change (8000000 / 1000) with 8000.
  rewrite (to_int32_t_small (n * 8000)) by lia.
  rewrite to_int32_t_small by lia.
  split; [lia|]. split; [lia|].
  intros Hn. unfold to_int32_t.
  pose proof (Z.mod_pos_bound (n * 8000000 + 2147483648) 4294967296 ltac:(lia)). lia.
Qed.

Lemma onoff_us_does_not_overflow_witness :
  0 <= 1400 <= 268435 /\ OnOff.US 1400 = 11200 /\
  to_int32_t (1400 * OnOff.F_CPU) <> 1400 * OnOff.F_CPU.
Proof.
  assert (H : 0 <= 1400 <= 268435) by (split; apply Z.leb_le; reflexivity).
  split; [exact H|].
  destruct (onoff_us_does_not_overflow 1400 H) as (_ & H1 & H2).
  split; [exact H1|]. apply H2. apply Z.leb_le. reflexivity.
Defined.

(** ** The lights of the AVR firmware *)

Lemma testbit_mask k i : 0 <= k -> Z.testbit (Z.shiftl 1 k) i = (k =? i).
Proof. intros H. rewrite Z.shiftl_1_l. apply Z.pow2_bits_eqb, H. Qed.

Lemma testbit_set_bit p k i :
  0 <= k -> 0 <= i < 8 ->
  Z.testbit (to_uint8_t (Z.lor p (Z.shiftl 1 k))) i = Z.testbit p i || (k =? i).
Proof.
  intros Hk Hi. rewrite testbit_to_uint8_t by exact Hi.
  rewrite Z.lor_spec, testbit_mask by exact Hk. reflexivity.
Qed.

Lemma testbit_clear_bit p k i :
  0 <= k -> 0 <= i < 8 ->
  Z.testbit (to_uint8_t (Z.land p (Z.lnot (Z.shiftl 1 k)))) i
  = Z.testbit p i && negb (k =? i).
Proof.
  intros Hk Hi. rewrite testbit_to_uint8_t by exact Hi.
  rewrite Z.land_spec, Z.lnot_spec, testbit_mask by lia. reflexivity.
Qed.

(** The loop body, with the [switch] on the scaling taken apart. *)
Lemma avr_main_loop_unfold g w :
  let g0 := Avr.front_light (Avr.show_led (Avr.set_led (Avr.show_led g) 0)) (to_int16_t w) in
  let len := Avr.center g0 w in
  let sc := Avr.switch_scale (Avr.brake_light (Avr.switch_state g0 len)) len in
  fst (Avr.main_loop g w)
  = Avr.tick (fst (Avr.send_pulse (fst sc) (Avr.recenter (snd sc)))).
Proof.
  intros g0 len sc. unfold Avr.main_loop. fold g0. fold len. fold sc.
  destruct sc as [g6 len6]. reflexivity.
Qed.

Lemma avr_tick_ports g :
  Avr.PORTB (Avr.tick g) = Avr.PORTB g /\ Avr.DDRB (Avr.tick g) = Avr.DDRB g /\
  Avr.led (Avr.tick g) = Avr.led g.
Proof. destruct g; avr_unfold; break_if; auto. Qed.

Lemma avr_send_pulse_ports g width :
  let g' := fst (Avr.send_pulse g width) in
  Avr.PORTB g'
  = to_uint8_t (Z.land (to_uint8_t (Z.lor (Avr.PORTB g) (Z.shiftl 1 Avr.PB3)))
                       (Z.lnot (Z.shiftl 1 Avr.PB3))) /\
  Avr.DDRB g' = Avr.DDRB g /\ Avr.led g' = Avr.led g /\ Avr.state g' = Avr.state g /\
  Avr.nobst g' = Avr.nobst g.
Proof. destruct g; avr_unfold; auto. Qed.

Lemma avr_switch_scale_ports g len :
  let g' := fst (Avr.switch_scale g len) in
  Avr.PORTB g' = Avr.PORTB g /\ Avr.DDRB g' = Avr.DDRB g /\
  Avr.led g'
  = match Avr.state g with
    | FWD => if (len <? Avr.FWDFULL) || (Avr.nobst g' >=? Avr.MAXBURST)
             then 1 else Avr.led g
    | REV | CTR => 1
    | INI | STP | BRK => 0
    end.
Proof.
  destruct g as [s d l n o P D]. destruct s;
    try (avr_unfold; break_if; repeat split; reflexivity).
  unfold Avr.switch_scale.
  cbn [Avr.state Avr.nobst Avr.set_nobst Avr.duration Avr.led Avr.offset Avr.PORTB Avr.DDRB].
  destruct (to_int8_t (n + 1) >=? Avr.MAXBURST);
    cbn [Avr.state Avr.nobst Avr.set_nobst Avr.duration Avr.led Avr.offset Avr.PORTB Avr.DDRB];
    match goal with
    | |- context [if ?c then (_, _) else (_, _)] => destruct c eqn:E
    end;
    cbn [fst Avr.set_led Avr.set_nobst Avr.state Avr.nobst Avr.duration Avr.led
         Avr.offset Avr.PORTB Avr.DDRB];
    rewrite ?E; repeat split; reflexivity.
Qed.

Lemma avr_switch_state_ports g len :
  Avr.PORTB (Avr.switch_state g len) = Avr.PORTB g /\
  Avr.DDRB (Avr.switch_state g len) = Avr.DDRB g /\
  Avr.led (Avr.switch_state g len) = Avr.led g.
Proof. destruct g as [[] ? ? ? ? ? ?]; avr_unfold; break_if; auto. Qed.

Lemma avr_brake_light_ports g :
  let g' := Avr.brake_light g in
  Avr.led g' = Avr.led g /\
  Avr.DDRB g'
  = match Avr.state g with
    | BRK | REV => to_uint8_t (Z.lor (Avr.DDRB g) (Z.shiftl 1 Avr.DDB2))
    | _ => to_uint8_t (Z.land (Avr.DDRB g) (Z.lnot (Z.shiftl 1 Avr.DDB2)))
    end /\
  Avr.PORTB g'
  = match Avr.state g with
    | BRK => to_uint8_t (Z.lor (Avr.PORTB g) (Z.shiftl 1 Avr.PB2))
    | REV => to_uint8_t (Z.land (Avr.PORTB g) (Z.lnot (Z.shiftl 1 Avr.PB2)))
    | _ => Avr.PORTB g
    end.
Proof. destruct g as [[] ? ? ? ? ? ?]; avr_unfold; auto. Qed.

Lemma avr_front_ports g w :
  let g0 := Avr.front_light (Avr.show_led (Avr.set_led (Avr.show_led g) 0)) (to_int16_t w) in
  Avr.led g0 = 0 /\ Avr.DDRB g0 = Avr.DDRB g /\
  Z.testbit (Avr.PORTB g0) Avr.PB0 = (1400 <=? to_int16_t w) /\
  Z.testbit (Avr.PORTB g0) Avr.PB1 = false.
Proof.
  destruct g as [s d l n o P D]. unfold Avr.front_light, Avr.show_led, Avr.set_led.
  cbn [Avr.led Avr.PORTB Avr.DDRB Avr.state Avr.duration Avr.nobst Avr.offset Avr.set_PORTB].
  destruct (Z.ltb_spec (to_int16_t w) 1400) as [H|H];
    cbn [Avr.led Avr.PORTB Avr.DDRB Avr.set_PORTB Avr.state Avr.duration Avr.nobst Avr.offset];
    (split; [reflexivity|split; [reflexivity|split]]).
  - unfold Avr.PB0. rewrite testbit_clear_bit by lia.
    replace (1400 <=? to_int16_t w) with false by lia. apply andb_false_r.
  - unfold Avr.PB0, Avr.PB1. rewrite testbit_clear_bit by lia.
    rewrite testbit_to_uint8_t by lia. rewrite Z.lor_spec.
    rewrite (Z.land_spec _ _ 1), Z.lnot_spec, testbit_mask by lia. cbn. 
    rewrite andb_false_r. reflexivity.
  - unfold Avr.PB0. rewrite testbit_set_bit by lia.
    replace (1400 <=? to_int16_t w) with true by lia. apply orb_true_r.
  - unfold Avr.PB0, Avr.PB1. rewrite testbit_set_bit by lia.
    rewrite testbit_to_uint8_t by lia. rewrite Z.lor_spec.
    rewrite (Z.land_spec _ _ 1), Z.lnot_spec, testbit_mask by lia. cbn.
    rewrite andb_false_r. reflexivity.
Qed.

Lemma avr_brake_light_state g : Avr.state (Avr.brake_light g) = Avr.state g.
Proof. apply (avr_same_brake_light g). Qed.

(** X14: the lights at the end of an iteration of the AVR loop.  The front
    light on PB0 is on exactly when the measured width is 1400 or more; PB2
    is an output driven high in [BRK] (red leds), an output driven low in
    [REV] (white led) and an input otherwise; the debug led on PB1 and the
    pulse output PB3 are low; and [led], which the next iteration shows on
    PB1 while it waits for its pulse, is 1 exactly when the width was
    limited or the firmware is centering: in [CTR], in [REV], and in [FWD]
    unless the width went through unscaled. *)
Theorem lights_follow_the_state (g : Avr.globals) (w : Z) :
  let g' := fst (Avr.main_loop g w) in
  Z.testbit (Avr.PORTB g') Avr.PB0 = (1400 <=? to_int16_t w) /\
  Z.testbit (Avr.PORTB g') Avr.PB1 = false /\
  Z.testbit (Avr.PORTB g') Avr.PB3 = false /\
  Z.testbit (Avr.DDRB g') Avr.DDB2
  = match Avr.state g' with BRK | REV => true | _ => false end /\
  (Avr.state g' = BRK -> Z.testbit (Avr.PORTB g') Avr.PB2 = true) /\
  (Avr.state g' = REV -> Z.testbit (Avr.PORTB g') Avr.PB2 = false) /\
  Avr.led g'
  = match Avr.state g' with
    | CTR | REV => 1
    | FWD => if (Avr.center g w <? Avr.FWDFULL) || (Avr.nobst g' >=? Avr.MAXBURST)
             then 1 else 0
    | INI | STP | BRK => 0
    end /\
  Z.testbit (Avr.PORTB (Avr.show_led g')) Avr.PB1 = (Avr.led g' =? 1).
Proof.
  intros g'. unfold g'. rewrite avr_main_loop_unfold.
  destruct (avr_front_ports g w) as (L0 & D0 & B0 & B1).
  assert (Hc : Avr.center
                 (Avr.front_light (Avr.show_led (Avr.set_led (Avr.show_led g) 0))
                    (to_int16_t w)) w = Avr.center g w).
  { apply avr_same_center.
    eapply avr_same_trans; [apply avr_same_front_light|].
    eapply avr_same_trans; [apply avr_same_show_led|].
    eapply avr_same_trans; [apply avr_same_set_led|]. apply avr_same_show_led. }
  revert L0 D0 B0 B1 Hc.
  generalize (Avr.front_light (Avr.show_led (Avr.set_led (Avr.show_led g) 0)) (to_int16_t w)).
  intros g0 L0 D0 B0 B1 Hc. rewrite Hc. clear Hc.
  generalize (Avr.center g w). intros len.
  destruct (avr_switch_state_ports g0 len) as (P4 & D4 & L4).
  revert P4 D4 L4. generalize (Avr.switch_state g0 len). intros g4 P4 D4 L4.
  destruct (avr_brake_light_ports g4) as (L5 & D5 & P5).
  pose proof (avr_brake_light_state g4) as S5.
  revert L5 D5 P5 S5. generalize (Avr.brake_light g4). intros g5 L5 D5 P5 S5.
  destruct (avr_switch_scale_ports g5 len) as (P6 & D6 & L6).
  destruct (avr_switch_scale_keeps g5 len) as (S6 & _).
  revert P6 D6 L6 S6. generalize (Avr.switch_scale g5 len). intros [g6 len6].
  cbn [fst snd]. intros P6 D6 L6 S6.
  destruct (avr_send_pulse_ports g6 (Avr.recenter len6)) as (P7 & D7 & L7 & S7 & N7).
  revert P7 D7 L7 S7 N7. generalize (fst (Avr.send_pulse g6 (Avr.recenter len6))).
  intros g7 P7 D7 L7 S7 N7.
  destruct (avr_tick_ports g7) as (P8 & D8 & L8).
  destruct (avr_tick_keeps g7) as (S8 & N8 & _).
  assert (Hbit : forall i, 0 <= i < 8 ->
            Z.testbit (Avr.PORTB (Avr.tick g7)) i
            = Z.testbit (Avr.PORTB g5) i && negb (Avr.PB3 =? i)).
  { intros i Hi. rewrite P8, P7, P6. unfold Avr.PB3.
    rewrite testbit_clear_bit, testbit_set_bit by lia.
    destruct (Z.eqb_spec 3 i); cbn [negb]; [rewrite !andb_false_r; reflexivity|].
    rewrite orb_false_r, andb_true_r. reflexivity. }
  assert (Hst : Avr.state (Avr.tick g7) = Avr.state g4) by congruence.
  assert (Hled : Avr.led (Avr.tick g7)
                 = match Avr.state g4 with
                   | CTR | REV => 1
                   | FWD => if (len <? Avr.FWDFULL)
                               || (Avr.nobst (Avr.tick g7) >=? Avr.MAXBURST)
                            then 1 else 0
                   | INI | STP | BRK => 0
                   end).
  { rewrite L8, L7, L6, S5, N8, N7, L5, L4, L0. reflexivity. }
  rewrite Hst.
  split; [|split; [|split; [|split; [|split; [|split; [|split]]]]]].
  - rewrite Hbit by (unfold Avr.PB0; lia). rewrite P5.
    unfold Avr.PB0, Avr.PB2, Avr.PB3 in *.
    destruct (Avr.state g4); rewrite ?testbit_set_bit, ?testbit_clear_bit by lia;
      rewrite P4, B0; cbn; rewrite ?orb_false_r, ?andb_true_r; reflexivity.
  - rewrite Hbit by (unfold Avr.PB1; lia). rewrite P5.
    unfold Avr.PB1, Avr.PB2, Avr.PB3 in *.
    destruct (Avr.state g4); rewrite ?testbit_set_bit, ?testbit_clear_bit by lia;
      rewrite P4, B1; reflexivity.
  - rewrite Hbit by (unfold Avr.PB3; lia). unfold Avr.PB3. apply andb_false_r.
  - rewrite D8, D7, D6, D5. unfold Avr.DDB2.
    destruct (Avr.state g4); rewrite ?testbit_set_bit, ?testbit_clear_bit by lia;
      cbn; rewrite ?orb_true_r, ?andb_false_r; reflexivity.
  - intros E. rewrite Hbit by (unfold Avr.PB2; lia). rewrite P5, E.
    unfold Avr.PB2, Avr.PB3. rewrite testbit_set_bit by lia. cbn.
    rewrite orb_true_r. reflexivity.
  - intros E. rewrite Hbit by (unfold Avr.PB2; lia). rewrite P5, E.
    unfold Avr.PB2, Avr.PB3. rewrite testbit_clear_bit by lia. cbn.
    rewrite andb_false_r. reflexivity.
  - exact Hled.
  - unfold Avr.show_led, Avr.set_PORTB. cbn [Avr.PORTB]. unfold Avr.PB1.
    rewrite testbit_to_uint8_t by lia.
    rewrite Z.lor_spec, Z.land_spec, Z.lnot_spec, testbit_mask by lia.
    rewrite Z.shiftl_spec by lia. cbn. rewrite andb_false_r, orb_false_r.
    rewrite Hled. destruct (Avr.state g4); try reflexivity.
    destruct ((len <? Avr.FWDFULL) || (Avr.nobst (Avr.tick g7) >=? Avr.MAXBURST));
      reflexivity.
Qed.

Lemma lights_follow_the_state_witness :
  let forward := fst (Avr.run Avr.boot (repeat 1500 21 ++ [1600])) in
  let idle := fst (Avr.run Avr.boot (repeat 1500 21)) in
  (Avr.state (fst (Avr.main_loop forward 1000)) = BRK /\
   Z.testbit (Avr.PORTB (fst (Avr.main_loop forward 1000))) Avr.PB2 = true) /\
  (Avr.state (fst (Avr.main_loop idle 1000)) = REV /\
   Z.testbit (Avr.PORTB (fst (Avr.main_loop idle 1000))) Avr.PB2 = false).
Proof.
  intros forward idle.
  assert (Eb : Avr.state (fst (Avr.main_loop forward 1000)) = BRK) by (lazy; reflexivity).
  assert (Er : Avr.state (fst (Avr.main_loop idle 1000)) = REV) by (lazy; reflexivity).
  split; (split; [assumption|]).
  - destruct (lights_follow_the_state forward 1000) as (_ & _ & _ & _ & H & _).
    exact (H Eb).
  - destruct (lights_follow_the_state idle 1000) as (_ & _ & _ & _ & _ & H & _).
    exact (H Er).
Defined.

(** ** The burst allowance of the Arduino build *)

(** X15: in the Arduino build, after any number of calls of [loop] from
    boot, [nobst] is within 0..2*MAXBURST (40) and [duration] within
    0..1000.  A Forward call that starts with [nobst] below MAXBURST - 1
    and a corrected width of FWDFULL (300) or more lets the width through
    and counts one more; one that starts with [nobst] at MAXBURST - 1 or
    more emits the width scaled by 2/5 and locks [nobst] at 40: the burst
    lasts MAXBURST - 1 = 19 calls. *)
Theorem arduino_burst_allowance (ws : list Z) (w : Z) :
  let a := fst (Arduino.run Arduino.boot ws) in
  let a' := fst (Arduino.loop a w) in
  0 <= Arduino.nobst a <= 2 * Arduino.MAXBURST /\
  0 <= Arduino.duration a <= 1000 /\
  (Arduino.state a' = FWD -> Arduino.nobst a < Arduino.MAXBURST - 1 ->
   Arduino.FWDFULL <= Arduino.center a w ->
   snd (Arduino.loop a w) = Arduino.recenter (Arduino.center a w) /\
   Arduino.nobst a' = Arduino.nobst a + 1) /\
  (Arduino.state a' = FWD -> Arduino.MAXBURST - 1 <= Arduino.nobst a ->
   snd (Arduino.loop a w) = Arduino.recenter (Arduino.scale_fwd (Arduino.center a w)) /\
   Arduino.nobst a' = 2 * Arduino.MAXBURST).
Proof.
  intros a a'.
  assert (Ha : ino_inv a) by (apply ino_inv_run, ino_inv_boot).
  destruct Ha as (Hn & Hd & _).
  pose proof (ino_scale_step a w ltac:(unfold Arduino.MAXBURST in Hn; lia)) as Hstep.
  cbv zeta in Hstep. fold a' in Hstep.
  split; [exact Hn|]. split; [exact Hd|]. split.
  - intros Hs Hlt Hfull. rewrite Hs in Hstep. destruct Hstep as [H1 H2].
    replace (Arduino.nobst a + 1 >=? Arduino.MAXBURST) with false in H1 by lia.
    rewrite H1 in H2.
    replace (Arduino.center a w <? Arduino.FWDFULL) with false in H2 by lia.
    replace (Arduino.nobst a + 1 >=? Arduino.MAXBURST) with false in H2 by lia.
    split; [exact H2|exact H1].
  - intros Hs Hge. rewrite Hs in Hstep. destruct Hstep as [H1 H2].
    replace (Arduino.nobst a + 1 >=? Arduino.MAXBURST) with true in H1 by lia.
    rewrite H1 in H2.
    change (2 * Arduino.MAXBURST >=? Arduino.MAXBURST) with true in H2.
    rewrite orb_true_r in H2. split; [exact H2|exact H1].
Qed.

Lemma arduino_burst_allowance_witness :
  let idle := repeat 1500 21 in
  (snd (Arduino.loop (fst (Arduino.run Arduino.boot (idle ++ repeat 2000 18))) 2000) = 2000) /\
  (snd (Arduino.loop (fst (Arduino.run Arduino.boot (idle ++ repeat 2000 19))) 2000) = 1700).
Proof.
  intros idle. split.
  - destruct (arduino_burst_allowance (idle ++ repeat 2000 18) 2000) as (_ & _ & H & _).
    apply H; [lazy; reflexivity|apply Z.ltb_lt; lazy; reflexivity
             |apply Z.leb_le; lazy; reflexivity].
  - destruct (arduino_burst_allowance (idle ++ repeat 2000 19) 2000) as (_ & _ & _ & H).
    apply H; [lazy; reflexivity|apply Z.leb_le; lazy; reflexivity].
Defined.

(** ** Scaling never amplifies and never reverses *)

(** X16: on corrected widths that the doubling does not overflow, the
    scalings of both builds keep the sign of the width and do not exceed
    its magnitude: the emitted width lies between the center and the
    width that came in. *)
Theorem scaling_shrinks_towards_center (len : Z) :
  -16384 <= len <= 16383 ->
  (0 <= len ->
   0 <= Avr.scale_fwd len <= len /\ 0 <= Avr.scale_rev len <= len /\
   0 <= Arduino.scale_fwd len <= len /\ 0 <= Arduino.scale_rev len <= len) /\
  (len <= 0 ->
   len <= Avr.scale_fwd len <= 0 /\ len <= Avr.scale_rev len <= 0 /\
   len <= Arduino.scale_fwd len <= 0 /\ len <= Arduino.scale_rev len <= 0).
Proof.
  intros H.
  unfold Avr.scale_fwd, Avr.scale_rev, Arduino.scale_fwd, Arduino.scale_rev, Arduino.to_int.
  rewrite (to_int16_t_small (len * 2)) by lia.
  rewrite !to_int16_t_small by lia.
  split; intros Hs; repeat split; lia.
Qed.

Lemma scaling_shrinks_towards_center_witness :
  -16384 <= -500 <= 16383 /\ -500 <= Avr.scale_rev (-500) <= 0.
Proof.
  assert (H : -16384 <= -500 <= 16383) by (split; apply Z.leb_le; reflexivity).
  split; [exact H|].
  destruct (scaling_shrinks_towards_center (-500) H) as [_ Hn].
  destruct (Hn ltac:(apply Z.leb_le; reflexivity)) as (_ & H2 & _). exact H2.
Defined.

(** ** The debug loops *)

(** X17: under [DEBUG_PULSE_PASSTHROUGH] the width handed to [send_pulse]
    is the width measured, for every [uint16_t] value; up to 32767 the loop
    of [send_pulse] runs twice that many times; the debug led on PB1 is on
    exactly for widths from 1500 to 32767 (the comparison is on the
    [int16_t]), and PB3 is low at the end. *)
Theorem pulse_passthrough_is_exact (g : Avr.globals) (w : Z) :
  0 <= w <= 65535 ->
  let g' := fst (Capture.pulse_passthrough g w) in
  snd (Capture.pulse_passthrough g w) = w /\
  Z.testbit (Avr.PORTB g') Avr.PB1 = ((1500 <=? w) && (w <=? 32767)) /\
  Z.testbit (Avr.PORTB g') Avr.PB3 = false /\
  (w <= 32767 ->
   forall p, exists hi lo,
     snd (Avr.send_pulse p (snd (Capture.pulse_passthrough g w)))
     = [PortWrite hi; Spin (2 * w); PortWrite lo]).
Proof.
  intros Hw g'.
  assert (E : to_uint16_t (to_int16_t w) = w).
  { unfold to_uint16_t, to_int16_t. lia. }
  assert (Eout : snd (Capture.pulse_passthrough g w) = w) by exact E.
  split; [exact Eout|]. split; [|split].
  - unfold g', Capture.pulse_passthrough. cbn [fst].
    destruct (avr_send_pulse_ports
                (if to_int16_t w <? 1500
                 then Avr.set_PORTB g (Z.land (Avr.PORTB g) (Z.lnot (Z.shiftl 1 Avr.PB1)))
                 else Avr.set_PORTB g (Z.lor (Avr.PORTB g) (Z.shiftl 1 Avr.PB1)))
                (to_uint16_t (to_int16_t w))) as (P & _).
    rewrite P. unfold Avr.PB1, Avr.PB3.
    rewrite testbit_clear_bit, testbit_set_bit by lia. cbn [Z.eqb negb].
    rewrite orb_false_r, andb_true_r.
    destruct (Z.ltb_spec (to_int16_t w) 1500) as [H|H]; cbn [Avr.PORTB Avr.set_PORTB].
    + rewrite testbit_clear_bit by lia. cbn. rewrite andb_false_r.
      symmetry. unfold to_int16_t in H. apply andb_false_iff. lia.
    + rewrite testbit_set_bit by lia. cbn. rewrite orb_true_r.
      symmetry. unfold to_int16_t in H. apply andb_true_iff. lia.
  - unfold g', Capture.pulse_passthrough. cbn [fst].
    destruct (avr_send_pulse_ports
                (if to_int16_t w <? 1500
                 then Avr.set_PORTB g (Z.land (Avr.PORTB g) (Z.lnot (Z.shiftl 1 Avr.PB1)))
                 else Avr.set_PORTB g (Z.lor (Avr.PORTB g) (Z.shiftl 1 Avr.PB1)))
                (to_uint16_t (to_int16_t w))) as (P & _).
    rewrite P. unfold Avr.PB3. rewrite testbit_clear_bit by lia. cbn.
    apply andb_false_r.
  - intros Hle p. rewrite Eout. apply send_pulse_spins. lia.
Qed.

Lemma pulse_passthrough_is_exact_witness :
  0 <= 1700 <= 65535 /\ snd (Capture.pulse_passthrough Avr.boot 1700) = 1700.
Proof.
  assert (H : 0 <= 1700 <= 65535) by (split; apply Z.leb_le; reflexivity).
  split; [exact H|]. exact (proj1 (pulse_passthrough_is_exact Avr.boot 1700 H)).
Defined.

(** X18: under [DEBUG_BIT_PASSTHROUGH] one round copies the input pin to
    PB3 and PB1 and leaves the other bits of [PORTB] alone. *)
Theorem bit_passthrough_copies_the_pin (portb pinb i : Z) :
  0 <= i < 8 ->
  Z.testbit (Capture.bit_passthrough portb pinb) i
  = if (i =? Avr.PB3) || (i =? Avr.PB1) then Capture.high pinb
    else Z.testbit portb i.
Proof.
  intros Hi. unfold Capture.bit_passthrough, Avr.PB3, Avr.PB1.
  destruct (Capture.high pinb); rewrite testbit_to_uint8_t by lia.
  - rewrite !Z.lor_spec, !testbit_mask by lia.
    destruct (Z.eqb_spec i 3), (Z.eqb_spec 3 i), (Z.eqb_spec i 1), (Z.eqb_spec 1 i);
      try lia; cbn; rewrite ?orb_true_r, ?orb_false_r; reflexivity.
  - rewrite Z.land_spec, Z.lnot_spec, Z.lor_spec, !testbit_mask by lia.
    destruct (Z.eqb_spec i 3), (Z.eqb_spec 3 i), (Z.eqb_spec i 1), (Z.eqb_spec 1 i);
      try lia; cbn; rewrite ?andb_true_r, ?andb_false_r; reflexivity.
Qed.

Lemma bit_passthrough_copies_the_pin_witness :
  0 <= 3 < 8 /\ Z.testbit (Capture.bit_passthrough 0 16) 3 = true.
Proof.
  assert (H : 0 <= 3 < 8) by (split; [apply Z.leb_le|apply Z.ltb_lt]; reflexivity).
  split; [exact H|]. exact (bit_passthrough_copies_the_pin 0 16 3 H).
Defined.

(** ** When the burst comes back *)

Lemma avr_no_forward_run ns : forall g,
  avr_inv g -> avr_no_forward g ns ->
  Avr.nobst (fst (Avr.run g ns)) = Z.max 0 (Avr.nobst g - Z.of_nat (length ns)).
Proof.
  induction ns as [|w ns IH]; intros g Hg Hns.
  - destruct Hg as (Hn & _). change (fst (Avr.run g [])) with g.
    change (Z.of_nat (length (@nil Z))) with 0. lia.
  - destruct Hns as [Hs Hns].
    pose proof (avr_inv_step g w Hg) as Hg1.
    pose proof Hg as (Hn & _).
    pose proof (avr_scale_step g w ltac:(unfold Avr.MAXBURST in Hn; lia)) as Hstep.
    cbv zeta in Hstep.
    assert (Hn1 : Avr.nobst (fst (Avr.main_loop g w)) = Z.max 0 (Avr.nobst g - 1)).
    { cbn [In] in Hs. destruct Hs as [E|[E|[E|[E|[]]]]];
        rewrite <- E in Hstep; exact (proj1 Hstep). }
    clear Hstep Hs. rewrite avr_run_cons.
    revert Hg1 Hns Hn1. generalize (fst (Avr.main_loop g w)). intros g1 Hg1 Hns Hn1.
    cbn [fst]. rewrite (IH g1 Hg1 Hns), Hn1.
    change (length (w :: ns)) with (S (length ns)). rewrite Nat2Z.inj_succ. lia.
Qed.

(** X19: how long the lock lasts.  From globals the firmware can reach
    with the burst counter locked at 2*MAXBURST, after [ns] iterations that
    all end in [INI], [REV], [STP] or [BRK] the counter is
    max 0 (30 - length ns); a Forward iteration that follows, on a measured
    width whose corrected value is FWDFULL or more, is still scaled by 2/5
    if fewer than 17 such iterations have passed, and goes through unscaled
    from 17 on. *)
Theorem burst_comes_back_after_seventeen (ws ns : list Z) (w : Z) :
  let g := fst (Avr.run Avr.boot ws) in
  let g1 := fst (Avr.run g ns) in
  let len := w - 1500 + Avr.offset g1 in
  Avr.nobst g = 2 * Avr.MAXBURST -> avr_no_forward g ns ->
  0 <= w <= 8191 -> Avr.state (fst (Avr.main_loop g1 w)) = FWD ->
  Avr.FWDFULL <= len ->
  Avr.nobst g1 = Z.max 0 (2 * Avr.MAXBURST - Z.of_nat (length ns)) /\
  Avr.center g1 w = len /\
  ((length ns < 17)%nat -> snd (Avr.main_loop g1 w) = 1500 + Z.quot (len * 2) 5) /\
  ((17 <= length ns)%nat -> snd (Avr.main_loop g1 w) = 1500 + len).
Proof.
  intros g g1 len Hlock Hns Hw Hfwd Hfull.
  assert (Hg : avr_inv g) by (apply avr_inv_run, avr_inv_boot).
  assert (Hg1 : avr_inv g1) by (apply avr_inv_run, Hg).
  pose proof (avr_no_forward_run ns g Hg Hns) as Hn1. fold g1 in Hn1.
  rewrite Hlock in Hn1.
  assert (Hc : Avr.state g1 <> CTR).
  { intros E. destruct (avr_step g1 w) as (Es & _). rewrite Hfwd in Es.
    destruct (avr_switch_state_CTR g1 (Avr.center g1 w) E) as (H1 & H2 & H3).
    destruct (Z_lt_le_dec (Avr.center g1 w) (-500)) as [L|L];
      [rewrite (H1 (or_introl L)) in Es; cbn [Avr.state Avr.set_duration] in Es; congruence|].
    destruct (Z_lt_le_dec 500 (Avr.center g1 w)) as [U|U];
      [rewrite (H1 (or_intror U)) in Es; cbn [Avr.state Avr.set_duration] in Es; congruence|].
    destruct (Z_lt_le_dec (Avr.duration g1) 20) as [D|D];
      [destruct (H2 (conj L U) D) as [H _]|destruct (H3 (conj L U) D) as [H _]];
      congruence. }
  destruct (avr_exact_step g1 w Hg1 Hw) as (Hcen & Hout & _).
  replace (state_eqb (Avr.state g1) CTR) with false in Hcen, Hout
    by (destruct (Avr.state g1); try reflexivity; congruence).
  fold len in Hcen, Hout. rewrite Hfwd in Hout.
  pose proof Hg1 as (Hr & _).
  pose proof (avr_scale_step g1 w ltac:(unfold Avr.MAXBURST in Hr; lia)) as Hstep.
  cbv zeta in Hstep. rewrite Hfwd in Hstep. destruct Hstep as [Hn' _].
  split; [exact Hn1|]. split; [exact Hcen|].
  replace (len <? Avr.FWDFULL) with false in Hout by lia.
  rewrite Hn' in Hout. unfold Avr.MAXBURST in *.
  split; intros Hk.
  - replace (Avr.nobst g1 + 1 >=? 15) with true in Hout by lia.
    exact Hout.
  - replace (Avr.nobst g1 + 1 >=? 15) with false in Hout by lia.
    replace (Avr.nobst g1 + 1 >=? 15) with false in Hout by lia.
    exact Hout.
Qed.

Lemma burst_comes_back_after_seventeen_witness :
  let locked := repeat 1500 21 ++ repeat 2000 15 in
  (snd (Avr.main_loop (fst (Avr.run Avr.boot (locked ++ repeat 1500 16))) 2000) = 1700) /\
  (snd (Avr.main_loop (fst (Avr.run Avr.boot (locked ++ repeat 1500 17))) 2000) = 2000).
Proof.
  intros locked.
  assert (Hw : 0 <= 2000 <= 8191) by (split; apply Z.leb_le; reflexivity).
  split.
  - destruct (burst_comes_back_after_seventeen locked (repeat 1500 16) 2000)
      as (_ & _ & H & _);
      [lazy; reflexivity|lazy; intuition|exact Hw
      |rewrite <- avr_run_app_fst; lazy; reflexivity
      |apply Z.leb_le; rewrite <- avr_run_app_fst; lazy; reflexivity|].
    rewrite <- avr_run_app_fst in H. apply H. lazy. lia.
  - destruct (burst_comes_back_after_seventeen locked (repeat 1500 17) 2000)
      as (_ & _ & _ & H);
      [lazy; reflexivity|lazy; intuition|exact Hw
      |rewrite <- avr_run_app_fst; lazy; reflexivity
      |apply Z.leb_le; rewrite <- avr_run_app_fst; lazy; reflexivity|].
    rewrite <- avr_run_app_fst in H. apply H. lazy. lia.
Defined.

(** ** The led of the Arduino build *)

Lemma ino_switch_state_pins g len :
  Arduino.pin_LED (Arduino.switch_state g len) = Arduino.pin_LED g.
Proof. destruct g as [[] ? ? ? ? ?]; ino_unfold; break_if; reflexivity. Qed.

Lemma ino_switch_scale_pins g len :
  Arduino.pin_LED (fst (Arduino.switch_scale g len)) = Arduino.pin_LED g.
Proof. destruct g as [[] ? ? ? ? ?]; ino_unfold; break_if; reflexivity. Qed.

Lemma ino_pulse_tick_pins g :
  let g' := Arduino.tick (Arduino.digitalWrite
                            (Arduino.digitalWrite g Arduino.PIN_OUT true)
                            Arduino.PIN_OUT false) in
  Arduino.pin_LED g' = Arduino.pin_LED g /\ Arduino.pin_OUT g' = false.
Proof. destruct g; ino_unfold; break_if; split; reflexivity. Qed.

(** X20: at the end of a call of the Arduino [loop] the pulse output is
    low, and the led is on exactly when the call started in [CTR] or the
    corrected width was off the rest band and within 1500 of the center:
    it shows the state the call started in, also on the call that ends the
    calibration. *)
Theorem arduino_led_shows_the_command (a : Arduino.globals) (w : Z) :
  let len := Arduino.center a w in
  let a' := fst (Arduino.loop a w) in
  Arduino.pin_OUT a' = false /\
  Arduino.pin_LED a'
  = (state_eqb (Arduino.state a) CTR
     || ((-1500 <=? len) && (len <=? - Arduino.MARGIN))
     || ((Arduino.MARGIN <=? len) && (len <=? 1500))).
Proof.
  intros len a'. unfold a', Arduino.loop. fold len.
  assert (L0 : Arduino.pin_LED (Arduino.calibration_led a len)
               = (state_eqb (Arduino.state a) CTR
                  || ((-1500 <=? len) && (len <=? - Arduino.MARGIN))
                  || ((Arduino.MARGIN <=? len) && (len <=? 1500)))).
  { unfold Arduino.calibration_led, Arduino.digitalWrite.
    change (Arduino.LED =? Arduino.LED) with true. cbn [Arduino.pin_LED].
    rewrite !Z.geb_leb. reflexivity. }
  revert L0. generalize (Arduino.calibration_led a len). intros a0 L0.
  pose proof (ino_switch_state_pins a0 len) as L1.
  revert L1. generalize (Arduino.switch_state a0 len). intros a1 L1.
  pose proof (ino_switch_scale_pins a1 len) as L2.
  revert L2. generalize (Arduino.switch_scale a1 len). intros [a2 len2].
  cbn [fst snd]. intros L2.
  destruct (ino_pulse_tick_pins a2) as [L3 O3].
  split; [exact O3|]. rewrite L3, L2, L1. exact L0.
Qed.
